(** * The EIP-1193 provider bridge of [app/(tabs)/explore.tsx]

    A shallow embedding of the two halves of the bridge:

    - the host side ([handleWebViewMessage], [onEthereumRequest],
      [sendWebViewResponse] and the tree that [App] mounts), and
    - the page side (the script held in [injectedJavaScript]: the
      installation guard, [request] and its per-call [handleMessage]).

    JavaScript code is written in a small trace-and-exception monad: a
    computation yields the list of the effects it performed, in order, and
    either completes or throws.  [JSON.parse], [JSON.stringify] and the
    behaviour of numbers are library code outside the repository; they are
    variables of the section. *)

From Stdlib Require Import String Ascii List Bool Arith DecimalString.
Import ListNotations.
Open Scope string_scope.
Set Warnings "-register-all".

(** ** Exceptions, completions and the trace monad *)

Inductive exn : Type :=
| SyntaxError
| TypeError (msg : string).

Inductive completion (A : Type) : Type :=
| Normal (a : A)
| Thrown (e : exn).

Arguments Normal {A} a.
Arguments Thrown {A} e.

(** A computation over events of type [E]: the events performed so far and
    how the computation ended. *)
Definition M (E A : Type) : Type := (list E * completion A)%type.

Definition ret {E A : Type} (a : A) : M E A := ([], Normal a).

Definition bind {E A B : Type} (m : M E A) (k : A -> M E B) : M E B :=
  match m with
  | (t, Normal a) => let (t', c) := k a in ((t ++ t')%list, c)
  | (t, Thrown e) => (t, Thrown e)
  end.

Definition emit {E : Type} (e : E) : M E unit := ([e], Normal tt).

Definition throw {E A : Type} (e : exn) : M E A := ([], Thrown e).

(** [try { body } catch (err) { handler err }] *)
Definition try_catch {E A : Type} (body : M E A) (handler : exn -> M E A) : M E A :=
  match body with
  | (t, Normal a) => (t, Normal a)
  | (t, Thrown e) => let (t', c) := handler e in ((t ++ t')%list, c)
  end.

Definition trace {E A : Type} (m : M E A) : list E := fst m.
Definition outcome {E A : Type} (m : M E A) : completion A := snd m.

Notation "x <- m ;; k" := (bind m (fun x => k))
  (at level 61, m at next level, right associativity).
Notation "m ;; k" := (bind m (fun _ => k))
  (at level 61, right associativity).

(** Characters that cannot be written inside a string literal here. *)
Definition nl : string := String (ascii_of_nat 10) EmptyString.
Definition dq : string := String (ascii_of_nat 34) EmptyString.

(** [s.includes(t)] *)
Fixpoint includes (s t : string) : bool :=
  if prefix t s then true
  else match s with
       | EmptyString => false
       | String _ s' => includes s' t
       end.

(** Natural numbers as the numbers of the examples. *)
Definition sample_truthy (n : nat) : bool := negb (Nat.eqb n 0).
Definition sample_to_string (n : nat) : string := NilZero.string_of_uint (Nat.to_uint n).

Section Bridge.

(** ** JavaScript values *)

(** The type of JavaScript numbers, which of them are truthy (all but
    [0], [-0] and [NaN]) and how a number prints. *)
Variable num : Type.
Variable num_truthy : num -> bool.
Variable num_to_string : num -> string.
(** [a === b] on numbers: [NaN] differs from itself, [0] equals [-0]. *)
Variable num_strict_eq : num -> num -> bool.

(** The values that cross the bridge: what [JSON.parse] can return, plus
    [undefined] for absent properties and missing arguments.  An object is
    its list of properties, in insertion order. *)
Inductive jsval : Type :=
| JUndefined
| JNull
| JBool (b : bool)
| JNum (n : num)
| JStr (s : string)
| JArr (items : list jsval)
| JObj (props : list (string * jsval)).

(** [JSON.parse text]: [None] when it throws a [SyntaxError]. *)
Variable JSON_parse : string -> option jsval.
(** [JSON.stringify value] *)
Variable JSON_stringify : jsval -> string.

(** ToBoolean *)
Definition truthy (v : jsval) : bool :=
  match v with
  | JUndefined => false
  | JNull => false
  | JBool b => b
  | JNum n => num_truthy n
  | JStr s => negb (String.eqb s "")
  | JArr _ => true
  | JObj _ => true
  end.

(** [a || b] *)
Definition js_or (a b : jsval) : jsval := if truthy a then a else b.

Definition is_undefined (v : jsval) : bool :=
  match v with
  | JUndefined => true
  | _ => false
  end.

(** [Object.hasOwn(o, k)] *)
Definition has_own (k : string) (props : list (string * jsval)) : bool :=
  existsb (fun kv => String.eqb (fst kv) k) props.

(** The abstract operation ToString, which template literals and
    [new Error] apply to their argument; [None] when it throws a
    [TypeError].  An array prints its elements joined by commas, [null] and
    [undefined] elements as nothing.  A plain object prints through the
    inherited [toString] as "[object Object]"; an own property [toString]
    shadows that method, and since no value here is callable the conversion
    then finds no method that yields a primitive, and throws. *)
Fixpoint to_string (v : jsval) : option string :=
  match v with
  | JUndefined => Some "undefined"
  | JNull => Some "null"
  | JBool true => Some "true"
  | JBool false => Some "false"
  | JNum n => Some (num_to_string n)
  | JStr s => Some s
  | JArr items =>
      (fix join (l : list jsval) : option string :=
         match l with
         | [] => Some ""
         | x :: rest =>
             match match x with
                   | JUndefined => Some ""
                   | JNull => Some ""
                   | _ => to_string x
                   end with
             | None => None
             | Some sx =>
                 match rest with
                 | [] => Some sx
                 | _ :: _ =>
                     match join rest with
                     | None => None
                     | Some sr => Some (sx ++ "," ++ sr)
                     end
                 end
             end
         end) items
  | JObj props => if has_own "toString" props then None else Some "[object Object]"
  end.

(** A value that ToString converts. *)
Definition printable (v : jsval) : bool :=
  match to_string v with
  | Some _ => true
  | None => false
  end.

(** [v === "literal"] *)
Definition strict_eq_str (v : jsval) (s : string) : bool :=
  match v with
  | JStr t => String.eqb t s
  | _ => false
  end.

(** [a === b] where [a] was freshly built by [JSON.parse]: an array or an
    object is a new reference, so it is identical to no other value. *)
Definition strict_eq (a b : jsval) : bool :=
  match a, b with
  | JUndefined, JUndefined => true
  | JNull, JNull => true
  | JBool x, JBool y => Bool.eqb x y
  | JNum x, JNum y => num_strict_eq x y
  | JStr x, JStr y => String.eqb x y
  | _, _ => false
  end.

Fixpoint lookup (k : string) (props : list (string * jsval)) : option jsval :=
  match props with
  | [] => None
  | (k', v) :: rest => if String.eqb k' k then Some v else lookup k rest
  end.

(** The value of property [k] of an object, [undefined] when absent. *)
Definition field (props : list (string * jsval)) (k : string) : jsval :=
  match lookup k props with
  | Some v => v
  | None => JUndefined
  end.

(** [v.k] for a property name [k] that no built-in prototype defines (the
    bridge reads [type], [method], [params], [success], [result] and
    [errorMessage] only): reading from [undefined] or [null] throws, an
    absent property reads as [undefined]. *)
Definition get_prop {E : Type} (v : jsval) (k : string) : M E jsval :=
  match v with
  | JUndefined => throw (TypeError "Cannot read properties of undefined")
  | JNull => throw (TypeError "Cannot read properties of null")
  | JObj props => ret (field props k)
  | _ => ret JUndefined
  end.

(** [`${v}`] and [String(v)] *)
Definition ToString {E : Type} (v : jsval) : M E string :=
  match to_string v with
  | Some s => ret s
  | None => throw (TypeError "Cannot convert object to primitive value")
  end.

Definition parse {E : Type} (text : string) : M E jsval :=
  match JSON_parse text with
  | Some v => ret v
  | None => throw SyntaxError
  end.

(** [const [a, b] = v]: array destructuring iterates [v], so it throws on a
    value that is not iterable.  A string yields its characters. *)
Definition destructure2 {E : Type} (v : jsval) : M E (jsval * jsval) :=
  match v with
  | JArr items => ret (nth 0 items JUndefined, nth 1 items JUndefined)
  | JStr s =>
      ret (match s with
           | EmptyString => (JUndefined, JUndefined)
           | String c EmptyString => (JStr (String c EmptyString), JUndefined)
           | String c (String c' _) =>
               (JStr (String c EmptyString), JStr (String c' EmptyString))
           end)
  | _ => throw (TypeError "value is not iterable")
  end.

(** ** Host side: effects *)

(** What straight-line host code and the button callbacks do.
    [Enter_sendWebViewResponse] records an invocation of
    [sendWebViewResponse] with its three arguments; [WebView_postMessage] is
    [webviewRef.current.postMessage(text)]. *)
Inductive action : Type :=
| Console_log (args : list jsval)
| Console_warn (msg : string) (error : exn)
| Toast (msg : string)
| Toast_error (msg : string)
| Toast_success (msg : string)
| Enter_sendWebViewResponse (method : jsval) (success : bool) (resultOrError : jsval)
| WebView_postMessage (text : string).

(** One entry of the button list handed to [Alert.alert]. *)
Record button : Type := Button {
  text : string;
  style : option string;
  onPress : M action unit
}.

(** What a request handler does: actions, and alerts it puts up.  The
    callbacks of an alert run later, when the user presses a button. *)
Inductive effect : Type :=
| Act (a : action)
| Alert_alert (title message : string) (buttons : list button).

(** Event types that host actions can be performed in. *)
Class Performs (E : Type) : Type := perform : action -> E.

#[local] Instance Performs_action : Performs action := fun a => a.
#[local] Instance Performs_effect : Performs effect := Act.

Definition console_log {E : Type} `{Performs E} (args : list jsval) : M E unit :=
  emit (perform (Console_log args)).
Definition console_warn {E : Type} `{Performs E} (msg : string) (error : exn) : M E unit :=
  emit (perform (Console_warn msg error)).
Definition toast {E : Type} `{Performs E} (msg : string) : M E unit :=
  emit (perform (Toast msg)).
Definition toast_error {E : Type} `{Performs E} (msg : string) : M E unit :=
  emit (perform (Toast_error msg)).
Definition toast_success {E : Type} `{Performs E} (msg : string) : M E unit :=
  emit (perform (Toast_success msg)).
Definition alert (title message : string) (buttons : list button) : M effect unit :=
  emit (Alert_alert title message buttons).

Definition bool_to_string (b : bool) : string := if b then "true" else "false".

(** ** Host side: the Host Bridge *)

(** [sendWebViewResponse], lines 222-242.  The body logs and nothing else:
    the block that would post the message is commented out. *)
Definition sendWebViewResponse {E : Type} `{Performs E}
    (method : jsval) (success : bool) (resultOrError : jsval) : M E unit :=
  emit (perform (Enter_sendWebViewResponse method success resultOrError)) ;;
  method_text <- ToString method ;;
  console_log [JStr ("[RESPONSE to " ++ method_text ++ "] success="
                       ++ bool_to_string success ++ ", data=");
               resultOrError].

(** The object literal of the commented-out block (lines 233-239): the
    Response that [sendWebViewResponse method success resultOrError] stands
    for.  A property whose value is [undefined] is dropped by
    [JSON.stringify]. *)
Definition ETH_RESPONSE (method : jsval) (success : bool) (resultOrError : jsval)
    : list (string * jsval) :=
  [ ("type", JStr "ETH_RESPONSE");
    ("method", method);
    ("success", JBool success);
    ("result", if success then resultOrError else JUndefined);
    ("errorMessage", if success then JUndefined else resultOrError) ].

(** [sendWebViewResponse] with the commented-out block enabled and
    [webviewRef.current] set.  Not what the source runs; kept to compare
    against. *)
Definition sendWebViewResponse_enabled {E : Type} `{Performs E}
    (method : jsval) (success : bool) (resultOrError : jsval) : M E unit :=
  sendWebViewResponse method success resultOrError ;;
  emit (perform (WebView_postMessage
                   (JSON_stringify (JObj (ETH_RESPONSE method success resultOrError))))).

(** [onEthereumRequest], lines 95-216.  The [switch] compares [method]
    with each label by [===]; the type annotation [method: string] is
    erased at run time, so [method] is whatever the message carried. *)
Definition onEthereumRequest (method params : jsval) : M effect unit :=
  method_text <- ToString method ;;
  console_log [JStr ("[EIP-1193 REQUEST] method=" ++ method_text); params] ;;
  if strict_eq_str method "eth_requestAccounts" then
    alert "Connection Request"
          ("Uniswap wants to connect your wallet." ++ nl ++ "Allow?")
      [ {| text := "Reject"; style := Some "destructive";
           onPress :=
             toast_error "User rejected wallet connection." ;;
             sendWebViewResponse method false (JStr "User rejected connection") |};
        {| text := "Allow"; style := None;
           onPress :=
             toast_success "Wallet connected (mock)." ;;
             sendWebViewResponse method true (JArr [JStr "0xDUMMY_WALLET_ADDRESS"]) |} ]
  else if strict_eq_str method "eth_chainId" then
    console_log [JStr "[eth_chainId] returning 0x1"] ;;
    sendWebViewResponse method true (JStr "0x1")
  else if strict_eq_str method "net_version" then
    console_log [JStr ("[net_version] returning " ++ dq ++ "1" ++ dq ++ " (mainnet)")] ;;
    sendWebViewResponse method true (JStr "1")
  else if strict_eq_str method "eth_accounts" then
    console_log [JStr "[eth_accounts] returning mock account"] ;;
    sendWebViewResponse method true (JArr [JStr "0xDUMMY_WALLET_ADDRESS"])
  else if strict_eq_str method "eth_sendTransaction" then
    alert "Transaction Request"
          ("Uniswap wants to send a transaction." ++ nl ++ "Approve transaction?")
      [ {| text := "Reject"; style := Some "destructive";
           onPress :=
             toast_error "Transaction rejected." ;;
             sendWebViewResponse method false (JStr "User rejected transaction") |};
        {| text := "Approve"; style := None;
           onPress :=
             let dummyHash := "0xDUMMY_TRANSACTION_HASH" in
             toast_success ("Transaction approved (mock): " ++ dummyHash) ;;
             sendWebViewResponse method true (JStr dummyHash) |} ]
  else if strict_eq_str method "wallet_switchEthereumChain" then
    console_log [JStr "[wallet_switchEthereumChain] -> mocked success"] ;;
    toast "Switching Ethereum chain (mock success)." ;;
    sendWebViewResponse method true JNull
  else if strict_eq_str method "personal_sign" then
    console_log [JStr "[personal_sign] request =>"; params] ;;
    ma <- destructure2 (js_or params (JArr [])) ;;
    let (message, address) := ma in
    message_text <- ToString message ;;
    address_text <- ToString address ;;
    alert "Signature Request"
          ("Uniswap wants to sign:" ++ nl ++ message_text ++ nl
             ++ "With address:" ++ nl ++ address_text ++ nl ++ "Allow?")
      [ {| text := "Reject"; style := Some "destructive";
           onPress :=
             toast_error "Signature rejected." ;;
             sendWebViewResponse method false (JStr "User rejected signature") |};
        {| text := "Allow"; style := None;
           onPress :=
             let dummySig := "0xFAKE_SIGNATURE" in
             toast_success ("Signed: " ++ substring 0 12 dummySig ++ "...") ;;
             sendWebViewResponse method true (JStr dummySig) |} ]
  else
    console_log [JStr "[EIP-1193] Unrecognized method:"; method] ;;
    toast_text <- ToString method ;;
    toast_error ("Method not supported: " ++ toast_text) ;;
    error_text <- ToString method ;;
    sendWebViewResponse method false (JStr ("Method not supported: " ++ error_text)).

(** [handleWebViewMessage], lines 79-88, with [event.nativeEvent.data] as
    its argument. *)
Definition handleWebViewMessage (data_text : string) : M effect unit :=
  try_catch
    (data <- parse data_text ;;
     ty <- get_prop data "type" ;;
     if strict_eq_str ty "ETH_REQUEST" then
       method <- get_prop data "method" ;;
       params <- get_prop data "params" ;;
       onEthereumRequest method params
     else ret tt)
    (fun error => console_warn "Error parsing message from web:" error).

(** ** Consent gate *)

(** The user's choice on an alert.  Every alert of the source lists its
    rejecting button first and its approving button second. *)
Inductive Decision : Type := Reject | Approve.

Definition button_index (d : Decision) : nat :=
  match d with
  | Reject => 0
  | Approve => 1
  end.

(** Pressing a button runs its [onPress]. *)
Definition press (d : Decision) (buttons : list button) : list action :=
  match nth_error buttons (button_index d) with
  | Some b => trace (onPress b)
  | None => []
  end.

(** The actions of a handler once the user has answered each alert it put
    up; [consent title message] is the answer to the alert so titled. *)
Definition settle (consent : string -> string -> Decision) (t : list effect) : list action :=
  flat_map (fun e => match e with
                     | Act a => [a]
                     | Alert_alert title message buttons => press (consent title message) buttons
                     end) t.

(** The arguments of one invocation of [sendWebViewResponse]. *)
Record response : Type := Response {
  r_method : jsval;
  r_success : bool;
  r_resultOrError : jsval
}.

(** The invocations of [sendWebViewResponse] in a run, in order. *)
Fixpoint emitted (t : list action) : list response :=
  match t with
  | [] => []
  | Enter_sendWebViewResponse m s r :: rest => Response m s r :: emitted rest
  | _ :: rest => emitted rest
  end.

(** The texts posted to the WebView in a run, in order. *)
Fixpoint posted (t : list action) : list string :=
  match t with
  | [] => []
  | WebView_postMessage text :: rest => text :: posted rest
  | _ :: rest => posted rest
  end.

(** The alerts a handler put up. *)
Fixpoint alerts (t : list effect) : list (string * string) :=
  match t with
  | [] => []
  | Alert_alert title message _ :: rest => (title, message) :: alerts rest
  | Act _ :: rest => alerts rest
  end.

(** A property is included in a Response when its value is not
    [undefined]. *)
Definition has_field (o : list (string * jsval)) (k : string) : bool :=
  match lookup k o with
  | Some v => negb (is_undefined v)
  | None => false
  end.

(** The Response of an invocation. *)
Definition response_message (r : response) : list (string * jsval) :=
  ETH_RESPONSE (r_method r) (r_success r) (r_resultOrError r).

(** ** Page side: the injected script *)

(** What [handleMessage] does to its pending call. *)
Inductive page_event : Type :=
| RemoveEventListener
| Resolve (value : jsval)
| RejectError (message : string).

(** [handleMessage], lines 40-54, of the call [request({method, params})].
    Its argument is the text [JSON.parse] reads, [String(event.data)].
    [new Error(x)] converts [x] with ToString for its message. *)
Definition handleMessage (method : jsval) (event_data : string) : M page_event unit :=
  try_catch
    (data <- parse event_data ;;
     ty <- get_prop data "type" ;;
     if strict_eq_str ty "ETH_RESPONSE" then
       m <- get_prop data "method" ;;
       if strict_eq m method then
         emit RemoveEventListener ;;
         success <- get_prop data "success" ;;
         if truthy success then
           result <- get_prop data "result" ;;
           emit (Resolve result)
         else
           errorMessage <- get_prop data "errorMessage" ;;
           message <- ToString (js_or errorMessage (JStr "Request failed")) ;;
           emit (RejectError message)
       else ret tt
     else ret tt)
    (fun err => ret tt).

Inductive promise_state : Type :=
| Pending
| Fulfilled (value : jsval)
| Rejected (message : string).

(** A call of [request] in flight: its method, whether its [handleMessage]
    is still registered, and the state of the promise it returned. *)
Record pending_call : Type := PendingCall {
  call_method : jsval;
  listening : bool;
  promise : promise_state
}.

(** A promise settles once: [resolve] and [reject] do nothing afterwards. *)
Definition apply_event (c : pending_call) (e : page_event) : pending_call :=
  match e with
  | RemoveEventListener => PendingCall (call_method c) false (promise c)
  | Resolve v =>
      match promise c with
      | Pending => PendingCall (call_method c) (listening c) (Fulfilled v)
      | _ => c
      end
  | RejectError msg =>
      match promise c with
      | Pending => PendingCall (call_method c) (listening c) (Rejected msg)
      | _ => c
      end
  end.

(** A ['message'] event reaches the call: its listener runs if it is
    still registered. *)
Definition on_message (event_data : string) (c : pending_call) : pending_call :=
  if listening c
  then fold_left apply_event (trace (handleMessage (call_method c) event_data)) c
  else c.

Definition on_messages (texts : list string) (c : pending_call) : pending_call :=
  fold_left (fun c text => on_message text c) texts c.

(** How many times the deferred was settled (calls of [resolve] or
    [reject]) in a run of the listener. *)
Fixpoint settlements (t : list page_event) : nat :=
  match t with
  | [] => 0
  | Resolve _ :: rest => S (settlements rest)
  | RejectError _ :: rest => S (settlements rest)
  | RemoveEventListener :: rest => settlements rest
  end.

(** What [window.ethereum] holds. *)
Inductive slot : Type :=
| Plain (v : jsval)
| Foreign_object (id : nat)
| Eip1193Provider.

Definition slot_truthy (x : slot) : bool :=
  match x with
  | Plain v => truthy v
  | Foreign_object _ => true
  | Eip1193Provider => true
  end.

Definition slot_is_object (x : slot) : bool :=
  match x with
  | Plain (JArr _) => true
  | Plain (JObj _) => true
  | Plain _ => false
  | Foreign_object _ => true
  | Eip1193Provider => true
  end.

Inductive timer_callback : Type := Auto_connect.

(** The content context: [window.ethereum], the timers set, the calls of
    [request] made so far, and the texts handed to
    [window.ReactNativeWebView.postMessage]. *)
Record window : Type := Window {
  ethereum : slot;
  timers : list (timer_callback * nat);
  calls : list pending_call;
  outbox : list string
}.

(** The script of lines 19-69: the window it leaves and its completion
    (the value of its last statement, [true]). *)
Definition injectedJavaScript (w : window) : window * completion jsval :=
  if slot_truthy (ethereum w) then (w, Normal (JBool true))
  else (Window Eip1193Provider
               (timers w ++ [(Auto_connect, 3000)])%list
               (calls w)
               (outbox w),
        Normal (JBool true)).

(** The text that [request({method, params})] posts to the host. *)
Definition request_text (method params : jsval) : string :=
  JSON_stringify (JObj [ ("type", JStr "ETH_REQUEST");
                         ("method", method);
                         ("params", params) ]).

(** [request({method, params})], lines 29-58: post the Request, register
    the listener, hand back a pending promise. *)
Definition request (method params : jsval) (w : window) : window :=
  Window (ethereum w)
         (timers w)
         (calls w ++ [PendingCall method true Pending])%list
         (outbox w ++ [request_text method params])%list.

(** A ['message'] event reaches every call of the page. *)
Definition window_message (event_data : string) (w : window) : window :=
  Window (ethereum w) (timers w) (map (on_message event_data) (calls w)) (outbox w).

(** ** The tree that [App] mounts *)

(** The props of a [WebView] that concern the bridge. *)
Record WebViewProps : Type := {
  prop_url : string;
  prop_onMessage : option (string -> M effect unit);
  prop_injectedJavaScript : option (window -> window * completion jsval)
}.

(** The [<WebView>] of lines 247-263: every prop but [url] is commented
    out. *)
Definition App_WebView : WebViewProps :=
  {| prop_url := "https://app.uniswap.org";
     prop_onMessage := None;
     prop_injectedJavaScript := None |}.

(** The same element with lines 250 and 251 enabled.  Not what the source
    mounts; kept to compare against. *)
Definition App_WebView_enabled : WebViewProps :=
  {| prop_url := "https://app.uniswap.org";
     prop_onMessage := Some handleWebViewMessage;
     prop_injectedJavaScript := Some injectedJavaScript |}.

(** [onPress] of the debug button, lines 267-272. *)
Definition Button_onPress : M effect unit :=
  onEthereumRequest (JStr "eth_requestAccounts") JUndefined.

(** The two sides and what has crossed between them: the texts handed to
    the [onMessage] handler, the texts that reached the page as ['message']
    events, and the actions the host performed.  The page hears from the
    host only; ['message'] events of other senders are outside the model. *)
Record system : Type := System {
  page : window;
  received : list string;
  delivered : list string;
  performed : list action
}.

Inductive input : Type :=
| Page_load
| Press_debug_button
| Page_calls_request (method params : jsval)
| Timer_fires.

Definition deliver (texts : list string) (w : window) : window :=
  fold_left (fun w text => window_message text w) texts w.

(** The host performed [acts]: what it posted reaches the page. *)
Definition host_did (acts : list action) (s : system) : system :=
  System (deliver (posted acts) (page s))
         (received s)
         (delivered s ++ posted acts)%list
         (performed s ++ acts)%list.

(** The WebView component, as its library documents it: a text the page
    hands to [window.ReactNativeWebView.postMessage] is passed to the
    [onMessage] prop when there is one, and dropped otherwise. *)
Definition page_posted (props : WebViewProps) (consent : string -> string -> Decision)
    (text : string) (s : system) : system :=
  match prop_onMessage props with
  | Some handler =>
      host_did (settle consent (trace (handler text)))
               (System (page s) (received s ++ [text])%list (delivered s) (performed s))
  | None => s
  end.

(** The page calls [window.ethereum.request]; what a provider other than
    the injected one would do is outside the model. *)
Definition page_request (props : WebViewProps) (consent : string -> string -> Decision)
    (method params : jsval) (s : system) : system :=
  match ethereum (page s) with
  | Eip1193Provider =>
      page_posted props consent (request_text method params)
        (System (request method params (page s)) (received s) (delivered s) (performed s))
  | _ => s
  end.

Definition step (props : WebViewProps) (consent : string -> string -> Decision)
    (s : system) (i : input) : system :=
  match i with
  | Page_load =>
      match prop_injectedJavaScript props with
      | Some script => System (fst (script (page s))) (received s) (delivered s) (performed s)
      | None => s
      end
  | Press_debug_button => host_did (settle consent (trace Button_onPress)) s
  | Page_calls_request method params => page_request props consent method params s
  | Timer_fires =>
      match timers (page s) with
      | (Auto_connect, _) :: rest =>
          page_request props consent (JStr "eth_requestAccounts") JUndefined
            (System (Window (ethereum (page s)) rest (calls (page s)) (outbox (page s)))
                    (received s) (delivered s) (performed s))
      | [] => s
      end
  end.

Definition run (props : WebViewProps) (consent : string -> string -> Decision)
    (inputs : list input) (s : system) : system :=
  fold_left (step props consent) inputs s.

(** ** Vocabulary of the statements *)

(** The methods of the dispatch table. *)
Definition dispatch_table : list string :=
  [ "eth_requestAccounts"; "eth_chainId"; "net_version"; "eth_accounts";
    "eth_sendTransaction"; "wallet_switchEthereumChain"; "personal_sign" ].

Definition supported (method : string) : bool :=
  existsb (String.eqb method) dispatch_table.

(** The run of a Request to its end: dispatch, then the user's answers. *)
Definition dispatch (consent : string -> string -> Decision) (method params : jsval)
    : list action :=
  settle consent (trace (onEthereumRequest method params)).

Definition element (i : nat) (params : jsval) : jsval :=
  match params with
  | JArr items => nth i items JUndefined
  | _ => JUndefined
  end.

(** [params] yields a message and an address for the prompt of
    [personal_sign]: it is falsy (and replaced by [[]]), a string, or an
    array whose first two elements ToString converts. *)
Definition presentable (params : jsval) : bool :=
  match params with
  | JArr _ => printable (element 0 params) && printable (element 1 params)
  | JStr _ => true
  | _ => negb (truthy params)
  end.

(** [params] is absent, [null] or an array of fewer than two elements. *)
Definition short_params (params : jsval) : bool :=
  match params with
  | JUndefined => true
  | JNull => true
  | JArr items => (List.length items <? 2)%nat
  | _ => false
  end.

(** A Response sets [success] and its payload consistently. *)
Definition consistent (r : response) : bool :=
  let o := response_message r in
  if r_success r
  then has_field o "result" && negb (has_field o "errorMessage")
  else has_field o "errorMessage" && negb (has_field o "result").

(** [text] parses to an object whose [type] is [expected]. *)
Definition well_typed (expected text : string) : bool :=
  match JSON_parse text with
  | Some (JObj props) => strict_eq_str (field props "type") expected
  | _ => false
  end.

(** [text] is a Response to a call of [method]. *)
Definition answers (method : jsval) (text : string) : bool :=
  match JSON_parse text with
  | Some (JObj props) =>
      strict_eq_str (field props "type") "ETH_RESPONSE"
      && strict_eq (field props "method") method
  | _ => false
  end.

(** Between [s] and [s'] nothing crossed the bridge: the host received no
    text from the page, no text reached the page and none was posted to
    it, [window.ethereum] is the same, the calls of [s] are as they were
    and the calls made since are all pending. *)
Definition nothing_crossed (s s' : system) : Prop :=
  received s' = received s
  /\ delivered s' = delivered s
  /\ posted (performed s') = posted (performed s)
  /\ ethereum (page s') = ethereum (page s)
  /\ exists new,
       calls (page s') = (calls (page s) ++ new)%list
       /\ Forall (fun c => promise c = Pending) new.

(** The methods whose branch asks the user. *)
Definition gated (method : string) : bool :=
  existsb (String.eqb method) ["eth_requestAccounts"; "eth_sendTransaction"; "personal_sign"].

(** The actions of a handler while its alerts are still unanswered. *)
Definition unanswered (t : list effect) : list action :=
  flat_map (fun e => match e with
                     | Act a => [a]
                     | Alert_alert _ _ _ => []
                     end) t.


(** The texts of the error toasts of a run, in order. *)
Fixpoint error_toasts (t : list action) : list string :=
  match t with
  | [] => []
  | Toast_error msg :: rest => msg :: error_toasts rest
  | _ :: rest => error_toasts rest
  end.

(** The Responses of a run that report a failure. *)
Definition failures (t : list action) : list response :=
  filter (fun r => negb (r_success r)) (emitted t).


(** The first text of [texts] that is a Response to a call of [method]. *)
Definition first_answer (method : jsval) (texts : list string) : option string :=
  find (answers method) texts.

(** A stand-in for [JSON.parse] that reads every text as the Request
    [{type: "ETH_REQUEST", method: "eth_chainId"}]. *)
Definition sample_parse_request (_ : string) : option jsval :=
  Some (JObj [ ("type", JStr "ETH_REQUEST"); ("method", JStr "eth_chainId") ]).

(** ** A runtime to evaluate examples in *)

(** The texts of the examples, and what [JSON.parse] makes of them. *)
Definition sample_texts : list (string * jsval) :=
  [ ("null", JNull);
    ("{}", JObj []);
    ("[1]", JArr [JStr "1"]);
    ("response:chainId",
     JObj [ ("type", JStr "ETH_RESPONSE"); ("method", JStr "eth_chainId");
            ("success", JBool true); ("result", JStr "0x1") ]);
    ("response:rejected",
     JObj [ ("type", JStr "ETH_RESPONSE"); ("method", JStr "eth_requestAccounts");
            ("success", JBool false); ("errorMessage", JStr "User rejected connection") ]);
    ("response:empty-error",
     JObj [ ("type", JStr "ETH_RESPONSE"); ("method", JStr "eth_chainId");
            ("success", JBool false); ("errorMessage", JStr "") ]);
    ("response:object-error",
     JObj [ ("type", JStr "ETH_RESPONSE"); ("method", JStr "eth_chainId");
            ("success", JBool false);
            ("errorMessage", JObj [("toString", JStr "x")]) ]);
    ("request:sign-object",
     JObj [ ("type", JStr "ETH_REQUEST"); ("method", JStr "personal_sign");
            ("params", JObj [("message", JStr "hello")]) ]);
    ("request:sign-unprintable",
     JObj [ ("type", JStr "ETH_REQUEST"); ("method", JStr "personal_sign");
            ("params", JArr [JObj [("toString", JStr "x")]]) ]) ].

(** A stand-in for [JSON.parse] on the examples: each key of
    [sample_texts] abbreviates the JSON text of its value, and every other
    text counts as a syntax error. *)
Definition sample_parse (text : string) : option jsval :=
  lookup text sample_texts.


(** ** Properties of the trace monad and of traces *)

Lemma bind_ret_l {E A B : Type} (a : A) (k : A -> M E B) : bind (ret a) k = k a.
Proof. unfold bind, ret. destruct (k a); reflexivity. Qed.

Lemma emitted_app (t1 t2 : list action) :
  emitted (t1 ++ t2) = (emitted t1 ++ emitted t2)%list.
Proof.
  induction t1 as [ | a t1 IH ]; cbn; [ reflexivity | ].
  destruct a; cbn; rewrite IH; reflexivity.
Qed.

Lemma posted_app (t1 t2 : list action) :
  posted (t1 ++ t2) = (posted t1 ++ posted t2)%list.
Proof.
  induction t1 as [ | a t1 IH ]; cbn; [ reflexivity | ].
  destruct a; cbn; rewrite IH; reflexivity.
Qed.

Lemma settle_app (consent : string -> string -> Decision) (t1 t2 : list effect) :
  settle consent (t1 ++ t2) = (settle consent t1 ++ settle consent t2)%list.
Proof. unfold settle. apply flat_map_app. Qed.

Lemma prefix_refl (s : string) : prefix s s = true.
Proof.
  induction s as [ | c s IH ]; cbn; [ reflexivity | ].
  destruct (ascii_dec c c) as [ _ | ne ]; [ exact IH | contradiction ].
Qed.

Lemma includes_self (s : string) : includes s s = true.
Proof.
  destruct s as [ | c s ]; [ reflexivity | ].
  change (includes (String c s) (String c s))
    with (if prefix (String c s) (String c s) then true
          else includes s (String c s)).
  rewrite prefix_refl. reflexivity.
Qed.

Lemma includes_suffix (p s : string) : includes (p ++ s) s = true.
Proof.
  induction p as [ | c p IH ].
  - apply includes_self.
  - change (includes (String c p ++ s) s)
      with (if prefix s (String c (p ++ s)) then true else includes (p ++ s) s).
    destruct (prefix s (String c (p ++ s))); [ reflexivity | exact IH ].
Qed.

(** ** Conversions and property reads *)

Lemma ToString_printable {E : Type} (v : jsval) (s : string) :
  to_string v = Some s -> ToString (E:=E) v = ret s.
Proof. intros H. unfold ToString. rewrite H. reflexivity. Qed.

Lemma printable_to_string (v : jsval) :
  printable v = true -> exists s, to_string v = Some s.
Proof.
  unfold printable. destruct (to_string v) as [ s | ]; [ eauto | discriminate ].
Qed.

Lemma get_prop_object {E : Type} (props : list (string * jsval)) (k : string) :
  get_prop (E:=E) (JObj props) k = ret (field props k).
Proof. reflexivity. Qed.

(** Splits on which label of the [switch] the method string [m] is. *)
Ltac switch_on m :=
  repeat match goal with
         | |- context [String.eqb m ?label] =>
             destruct (String.eqb_spec m label); [ subst m | ]
         end.

(** ** The Host Bridge *)

(** A method outside the dispatch table fails every test of the
    [switch]. *)
Lemma unsupported_labels (m : string) :
  supported m = false ->
  String.eqb m "eth_requestAccounts" = false /\
  String.eqb m "eth_chainId" = false /\
  String.eqb m "net_version" = false /\
  String.eqb m "eth_accounts" = false /\
  String.eqb m "eth_sendTransaction" = false /\
  String.eqb m "wallet_switchEthereumChain" = false /\
  String.eqb m "personal_sign" = false.
Proof.
  unfold supported, dispatch_table. cbn [existsb].
  intros H.
  repeat (apply orb_false_elim in H; destruct H as [? H]).
  repeat split; assumption.
Qed.

(** The [personal_sign] branch once [params] has yielded a message and an
    address that print as [mt] and [at_]. *)
Lemma personal_sign_presented (params message address : jsval) (mt at_ : string) :
  destructure2 (E:=effect) (js_or params (JArr [])) = ret (message, address) ->
  to_string message = Some mt ->
  to_string address = Some at_ ->
  let method := JStr "personal_sign" in
  let prompt := "Uniswap wants to sign:" ++ nl ++ mt ++ nl
                  ++ "With address:" ++ nl ++ at_ ++ nl ++ "Allow?" in
  outcome (onEthereumRequest method params) = Normal tt
  /\ alerts (trace (onEthereumRequest method params)) = [("Signature Request", prompt)]
  /\ forall consent,
       emitted (dispatch consent method params)
       = [ match consent "Signature Request" prompt with
           | Reject => Response method false (JStr "User rejected signature")
           | Approve => Response method true (JStr "0xFAKE_SIGNATURE")
           end ].
Proof.
  intros Hd Hm Ha method prompt. subst method prompt.
  unfold dispatch, onEthereumRequest.
  rewrite (ToString_printable (JStr "personal_sign") "personal_sign" eq_refl), bind_ret_l.
  cbn [strict_eq_str String.eqb Ascii.eqb Bool.eqb].
  rewrite Hd. cbn -[ToString].
  rewrite (ToString_printable message mt Hm), (ToString_printable address at_ Ha).
  cbn. repeat split.
  intros consent. destruct (consent _ _); reflexivity.
Qed.

(** The cases in which [params] yields a message and an address. *)
Lemma presentable_destructures (params : jsval) :
  presentable params = true ->
  exists message address mt at_,
    destructure2 (E:=effect) (js_or params (JArr [])) = ret (message, address)
    /\ to_string message = Some mt
    /\ to_string address = Some at_.
Proof.
  unfold presentable, js_or.
  destruct params as [ | | b | x | s | items | props ]; cbn [truthy negb element];
    intros H; try discriminate H.
  - exists JUndefined, JUndefined. do 2 eexists. repeat split.
  - exists JUndefined, JUndefined. do 2 eexists. repeat split.
  - destruct b; [ discriminate H | ].
    exists JUndefined, JUndefined. do 2 eexists. repeat split.
  - apply negb_true_iff in H. rewrite H.
    exists JUndefined, JUndefined. do 2 eexists. repeat split.
  - destruct s as [ | c [ | c' s ] ]; cbn; do 4 eexists; repeat split.
  - apply andb_true_iff in H. destruct H as [H0 H1].
    destruct (printable_to_string _ H0) as [mt Hm].
    destruct (printable_to_string _ H1) as [at_ Ha].
    exists (nth 0 items JUndefined), (nth 1 items JUndefined), mt, at_.
    repeat split; assumption.
Qed.

(** C1 (amended): for every Request whose method is a string and whose
    [params], when the method is [personal_sign], is falsy, a string, or
    an array whose first two elements convert to strings, and for any
    answer of the user to each alert, dispatch completes and
    [sendWebViewResponse] is invoked exactly once, with the method of the
    Request. *)
Theorem dispatch_responds_once :
  forall (consent : string -> string -> Decision) (m : string) (params : jsval),
    (m = "personal_sign" -> presentable params = true) ->
    outcome (onEthereumRequest (JStr m) params) = Normal tt /\
    exists success payload,
      emitted (dispatch consent (JStr m) params) = [Response (JStr m) success payload].
Proof.
  intros consent m params Hsign.
  destruct (String.eqb_spec m "personal_sign") as [ -> | Hm ].
  - destruct (presentable_destructures params (Hsign eq_refl))
      as (message & address & mt & at_ & Hd & Hmt & Hat).
    destruct (personal_sign_presented params message address mt at_ Hd Hmt Hat)
      as (Hout & _ & Hemit).
    split; [ exact Hout | ]. rewrite Hemit.
    destruct (consent _ _); eauto.
  - unfold dispatch, onEthereumRequest. cbn [strict_eq_str].
    rewrite (ToString_printable (JStr m) m eq_refl), bind_ret_l.
    switch_on m; try contradiction.
    + cbn. split; [ reflexivity | ].
      destruct (consent _ _); cbn; eauto.
    + cbn. eauto.
    + cbn. eauto.
    + cbn. eauto.
    + cbn. split; [ reflexivity | ].
      destruct (consent _ _); cbn; eauto.
    + cbn. eauto.
    + cbn. eauto.
Qed.

(** What [handleWebViewMessage] can do with a text: warn about it, ignore
    it, or hand it to [onEthereumRequest] (warning afterwards if that
    throws). *)
Lemma handleWebViewMessage_cases (data_text : string) :
  (exists e, handleWebViewMessage data_text
             = ([Act (Console_warn "Error parsing message from web:" e)], Normal tt))
  \/ handleWebViewMessage data_text = ([], Normal tt)
  \/ (exists method params tail,
        trace (handleWebViewMessage data_text)
        = (trace (onEthereumRequest method params) ++ tail)%list
        /\ (tail = [] \/ exists e, tail = [Act (Console_warn "Error parsing message from web:" e)])).
Proof.
  unfold handleWebViewMessage, parse.
  destruct (JSON_parse data_text) as [ data | ]; [ | left; eexists; reflexivity ].
  destruct data as [ | | b | x | s | items | props ]; cbn -[onEthereumRequest];
    try (left; eexists; reflexivity); try (right; left; reflexivity).
  destruct (strict_eq_str _ "ETH_REQUEST"); [ | right; left; reflexivity ].
  right; right.
  cbn -[onEthereumRequest].
  match goal with
  | |- context [onEthereumRequest ?m ?p] =>
      exists m, p; destruct (onEthereumRequest m p) as [t [[] | e]]
  end.
  - exists []. cbn. rewrite app_nil_r. auto.
  - eexists. cbn. split; [ reflexivity | ]. right. eexists. reflexivity.
Qed.

(** Every invocation of [sendWebViewResponse] made for a Request,
    whatever its method and [params] and whatever the user answers, stands
    for a consistent Response. *)
Lemma dispatch_consistent :
  forall (consent : string -> string -> Decision) (method params : jsval),
    forallb consistent (emitted (dispatch consent method params)) = true.
Proof.
  intros consent method params.
  unfold dispatch, onEthereumRequest, sendWebViewResponse, ToString.
  destruct (to_string method) as [ mt | ]; [ | reflexivity ].
  destruct method as [ | | b | x | m | items | props ];
    try (cbn; reflexivity).
  cbn [strict_eq_str].
  switch_on m; try (cbn; reflexivity);
    try (cbn; destruct (consent _ _); reflexivity).
  destruct params as [ | | b | x | s | items | props ]; unfold js_or; cbn [truthy];
    try (cbn; try destruct (consent _ _); reflexivity).
  - destruct b; cbn; try destruct (consent _ _); reflexivity.
  - destruct (num_truthy x); cbn; try destruct (consent _ _); reflexivity.
  - destruct s as [ | c [ | c' s ] ]; cbn; destruct (consent _ _); reflexivity.
  - cbn -[to_string nth].
    destruct (to_string (nth 0 items JUndefined)); [ | reflexivity ].
    cbn -[to_string nth].
    destruct (to_string (nth 1 items JUndefined)); [ | reflexivity ].
    cbn. destruct (consent _ _); reflexivity.
Qed.

(** C2: every Response the Host Bridge produces -- on every branch of the
    dispatch, reached directly or through [handleWebViewMessage], and for
    every answer of the user -- includes [result] and omits [errorMessage]
    when [success] is true, and includes [errorMessage] and omits [result]
    when [success] is false. *)
Theorem responses_consistent :
  forall (consent : string -> string -> Decision),
    (forall method params,
        forallb consistent (emitted (dispatch consent method params)) = true)
    /\ (forall data_text,
           forallb consistent
             (emitted (settle consent (trace (handleWebViewMessage data_text)))) = true).
Proof.
  intros consent. split; [ apply dispatch_consistent | ].
  intros data_text.
  destruct (handleWebViewMessage_cases data_text)
    as [ [e H] | [ H | (method & params & tail & H & Htail) ] ];
    try (rewrite H; reflexivity).
  rewrite H, settle_app, emitted_app, forallb_app.
  fold (dispatch consent method params). rewrite dispatch_consistent.
  destruct Htail as [ -> | [e ->] ]; reflexivity.
Qed.

(** C4: a Request for [eth_requestAccounts] puts up one alert; if the user
    rejects, the Response has [success] false and the error message "User
    rejected connection"; if the user approves, its result is the
    one-element array holding the mock address, the array [eth_accounts]
    answers with; the outcome does not depend on [params], so repeated
    approved calls give the same Response. *)
Theorem requestAccounts_outcome :
  forall (consent : string -> string -> Decision) (params : jsval),
    let method := JStr "eth_requestAccounts" in
    let title := "Connection Request" in
    let message := "Uniswap wants to connect your wallet." ++ nl ++ "Allow?" in
    alerts (trace (onEthereumRequest method params)) = [(title, message)]
    /\ emitted (dispatch consent method params)
       = [ match consent title message with
           | Reject => Response method false (JStr "User rejected connection")
           | Approve => Response method true (JArr [JStr "0xDUMMY_WALLET_ADDRESS"])
           end ]
    /\ ETH_RESPONSE method false (JStr "User rejected connection")
       = [ ("type", JStr "ETH_RESPONSE"); ("method", method);
           ("success", JBool false); ("result", JUndefined);
           ("errorMessage", JStr "User rejected connection") ]
    /\ (forall params', emitted (dispatch consent method params')
                        = emitted (dispatch consent method params))
    /\ (forall consent' params',
           map r_resultOrError
               (emitted (dispatch consent' (JStr "eth_accounts") params'))
           = [JArr [JStr "0xDUMMY_WALLET_ADDRESS"]]).
Proof.
  intros consent params method title message.
  split; [ reflexivity | ].
  split; [ unfold dispatch; cbn; destruct (consent _ _); reflexivity | ].
  split; [ reflexivity | ].
  split; reflexivity.
Qed.

(** C5: a Request for [eth_chainId], with any [params] or none, puts up no
    alert and yields at once the one Response with [success] true and
    result "0x1"; repeated calls yield the same Response. *)
Theorem chainId_outcome :
  forall (consent : string -> string -> Decision) (params : jsval),
    let method := JStr "eth_chainId" in
    alerts (trace (onEthereumRequest method params)) = []
    /\ outcome (onEthereumRequest method params) = Normal tt
    /\ emitted (dispatch consent method params) = [Response method true (JStr "0x1")]
    /\ ETH_RESPONSE method true (JStr "0x1")
       = [ ("type", JStr "ETH_RESPONSE"); ("method", method);
           ("success", JBool true); ("result", JStr "0x1");
           ("errorMessage", JUndefined) ]
    /\ (forall consent' params',
           emitted (dispatch consent' method params')
           = emitted (dispatch consent method params)).
Proof.
  intros consent params method.
  split; [ reflexivity | ]. split; [ reflexivity | ].
  split; [ reflexivity | ]. split; reflexivity.
Qed.

(** C6: a Request whose method is a string outside the dispatch table makes
    dispatch complete without throwing, put up no alert, and produce the one
    Response with [success] false whose error message, "Method not
    supported: " followed by the method, contains the method. *)
Theorem unsupported_method_fails :
  forall (consent : string -> string -> Decision) (m : string) (params : jsval),
    supported m = false ->
    let errorMessage := "Method not supported: " ++ m in
    outcome (onEthereumRequest (JStr m) params) = Normal tt
    /\ alerts (trace (onEthereumRequest (JStr m) params)) = []
    /\ emitted (dispatch consent (JStr m) params)
       = [Response (JStr m) false (JStr errorMessage)]
    /\ field (ETH_RESPONSE (JStr m) false (JStr errorMessage)) "errorMessage"
       = JStr errorMessage
    /\ includes errorMessage m = true.
Proof.
  intros consent m params Hm errorMessage.
  destruct (unsupported_labels m Hm) as (H1 & H2 & H3 & H4 & H5 & H6 & H7).
  unfold dispatch, onEthereumRequest. cbn [strict_eq_str].
  rewrite H1, H2, H3, H4, H5, H6, H7.
  split; [ reflexivity | ]. split; [ reflexivity | ].
  split; [ reflexivity | ]. split; [ reflexivity | ].
  apply includes_suffix.
Qed.

(** C10 (amended): a [personal_sign] Request whose [params] is absent,
    [null] or an array of fewer than two elements, its element (if any)
    converting to a string, does not make dispatch throw; the prompt shows
    the element that is there and "undefined" for the others (both, when
    [params] is absent, [null] or empty); approval yields the fixed
    signature and rejection the signature-rejection message. *)
Theorem personal_sign_short_params :
  forall (consent : string -> string -> Decision) (params : jsval) (shown : string),
    short_params params = true ->
    to_string (element 0 params) = Some shown ->
    let method := JStr "personal_sign" in
    let prompt := "Uniswap wants to sign:" ++ nl ++ shown ++ nl
                    ++ "With address:" ++ nl ++ "undefined" ++ nl ++ "Allow?" in
    outcome (onEthereumRequest method params) = Normal tt
    /\ alerts (trace (onEthereumRequest method params)) = [("Signature Request", prompt)]
    /\ emitted (dispatch consent method params)
       = [ match consent "Signature Request" prompt with
           | Reject => Response method false (JStr "User rejected signature")
           | Approve => Response method true (JStr "0xFAKE_SIGNATURE")
           end ]
    /\ (params = JUndefined \/ params = JNull \/ params = JArr [] -> shown = "undefined").
Proof.
  intros consent params shown Hshort Hshown method prompt.
  assert (Hd : destructure2 (E:=effect) (js_or params (JArr []))
               = ret (element 0 params, JUndefined)).
  { destruct params as [ | | b | x | s | items | props ]; try discriminate Hshort;
      try reflexivity.
    destruct items as [ | v [ | v' items ] ]; try discriminate Hshort; reflexivity. }
  destruct (personal_sign_presented params (element 0 params) JUndefined
              shown "undefined" Hd Hshown eq_refl) as (Hout & Halerts & Hemit).
  split; [ exact Hout | ]. split; [ exact Halerts | ]. split; [ apply Hemit | ].
  intros [ -> | [ -> | -> ] ]; cbn in Hshown; congruence.
Qed.

(** ** The Injected Provider *)

Lemma on_message_not_listening (text : string) (c : pending_call) :
  listening c = false -> on_message text c = c.
Proof. intros H. unfold on_message. rewrite H. reflexivity. Qed.

Lemma on_messages_not_listening (texts : list string) (c : pending_call) :
  listening c = false -> on_messages texts c = c.
Proof.
  intros H. induction texts as [ | text texts IH ]; [ reflexivity | ].
  unfold on_messages in *. cbn [fold_left].
  rewrite on_message_not_listening by exact H. exact IH.
Qed.

(** The listener on a Response to its call: it deregisters, then settles
    unless building the error throws. *)
Lemma handleMessage_answer (method : jsval) (text : string) (props : list (string * jsval)) :
  JSON_parse text = Some (JObj props) ->
  strict_eq_str (field props "type") "ETH_RESPONSE" = true ->
  strict_eq (field props "method") method = true ->
  handleMessage method text =
  (RemoveEventListener ::
     (if truthy (field props "success")
      then [Resolve (field props "result")]
      else match to_string (js_or (field props "errorMessage") (JStr "Request failed")) with
           | Some message => [RejectError message]
           | None => []
           end),
   Normal tt).
Proof.
  intros Hparse Hty Hm.
  unfold handleMessage, parse. rewrite Hparse.
  rewrite bind_ret_l, get_prop_object, bind_ret_l, Hty.
  rewrite get_prop_object, bind_ret_l, Hm.
  unfold ToString, field. cbn.
  destruct (truthy _); [ reflexivity | ].
  destruct (to_string _); reflexivity.
Qed.

(** The listener on anything else: it does nothing and does not throw. *)
Lemma handleMessage_ignores (method : jsval) (text : string) :
  answers method text = false ->
  handleMessage method text = ([], Normal tt).
Proof.
  unfold answers, handleMessage, parse.
  destruct (JSON_parse text) as [ data | ]; [ | reflexivity ].
  destruct data as [ | | b | x | s | items | props ]; try reflexivity.
  intros H.
  rewrite bind_ret_l, get_prop_object, bind_ret_l.
  destruct (strict_eq_str (field props "type") "ETH_RESPONSE"); [ | reflexivity ].
  rewrite get_prop_object, bind_ret_l.
  cbn in H. rewrite H. reflexivity.
Qed.

(** A run of the listener that deregisters and settles once. *)
Lemma on_message_settled (method : jsval) (text : string) (e : page_event)
    (p : promise_state) :
  handleMessage method text = ([RemoveEventListener; e], Normal tt) ->
  promise (apply_event (PendingCall method false Pending) e) = p ->
  settlements [e] = 1 ->
  settlements (trace (handleMessage method text)) = 1
  /\ on_message text (PendingCall method true Pending) = PendingCall method false p.
Proof.
  intros Hrun Hp Hone. rewrite Hrun. split; [ exact Hone | ].
  unfold on_message. cbn [listening call_method]. rewrite Hrun.
  subst p. destruct e; cbn in *; try reflexivity; discriminate Hone.
Qed.

(** C7 (amended): for a pending call whose listener is registered, a
    message that parses to an object of type "ETH_RESPONSE" with the call's
    method makes the listener deregister, and no later message changes the
    call; the promise is settled exactly once -- fulfilled with [result]
    when [success] is truthy; when [success] is falsy, rejected with
    "Request failed" when [errorMessage] is absent or falsy (the empty
    string included), and with the text of [errorMessage] when that is
    truthy and converts to a string.  Any other message leaves the listener
    registered and the call untouched. *)
Theorem handleMessage_settles_once :
  forall (c : pending_call) (text : string),
    listening c = true ->
    promise c = Pending ->
    (answers (call_method c) text = true ->
     exists props,
       let c' := on_message text c in
       let runs := settlements (trace (handleMessage (call_method c) text)) in
       JSON_parse text = Some (JObj props)
       /\ call_method c' = call_method c
       /\ listening c' = false
       /\ (forall later, on_messages later c' = c')
       /\ (truthy (field props "success") = true ->
           runs = 1 /\ promise c' = Fulfilled (field props "result"))
       /\ (truthy (field props "success") = false ->
           truthy (field props "errorMessage") = false ->
           runs = 1 /\ promise c' = Rejected "Request failed")
       /\ (truthy (field props "success") = false ->
           truthy (field props "errorMessage") = true ->
           forall message,
             to_string (field props "errorMessage") = Some message ->
             runs = 1 /\ promise c' = Rejected message))
    /\ (answers (call_method c) text = false ->
        handleMessage (call_method c) text = ([], Normal tt)
        /\ on_message text c = c).
Proof.
  intros [method l pr] text Hl Hp. cbn in Hl, Hp. subst l pr.
  cbn [call_method]. split.
  - unfold answers. intros H.
    destruct (JSON_parse text) as [ [ | | b | x | s | items | props ] | ] eqn:Hparse;
      try discriminate H.
    apply andb_true_iff in H. destruct H as [Hty Hm].
    exists props. cbv zeta.
    pose proof (handleMessage_answer method text props Hparse Hty Hm) as Hrun.
    assert (Hshape : call_method (on_message text (PendingCall method true Pending)) = method
                     /\ listening (on_message text (PendingCall method true Pending)) = false).
    { unfold on_message. cbn [listening call_method]. rewrite Hrun.
      destruct (truthy (field props "success")); [ split; reflexivity | ].
      destruct (to_string _); split; reflexivity. }
    destruct Hshape as [Hmethod Hlisten].
    split; [ reflexivity | ]. split; [ exact Hmethod | ]. split; [ exact Hlisten | ].
    split; [ intros later; apply on_messages_not_listening; exact Hlisten | ].
    unfold js_or in Hrun.
    split; [ | split ].
    + intros Hs. rewrite Hs in Hrun.
      destruct (on_message_settled method text _ (Fulfilled (field props "result"))
                  Hrun eq_refl eq_refl) as [H1 H2].
      rewrite H2. split; [ exact H1 | reflexivity ].
    + intros Hs He. rewrite Hs, He in Hrun. cbn in Hrun.
      destruct (on_message_settled method text _ (Rejected "Request failed")
                  Hrun eq_refl eq_refl) as [H1 H2].
      rewrite H2. split; [ exact H1 | reflexivity ].
    + intros Hs He message Hmsg. rewrite Hs, He, Hmsg in Hrun.
      destruct (on_message_settled method text _ (Rejected message)
                  Hrun eq_refl eq_refl) as [H1 H2].
      rewrite H2. split; [ exact H1 | reflexivity ].
  - intros H. split; [ apply handleMessage_ignores; exact H | ].
    unfold on_message. cbn [listening call_method].
    rewrite (handleMessage_ignores method text H). reflexivity.
Qed.

(** C8: when [window.ethereum] already holds an object, the injected script
    leaves the window as it found it -- the same provider, no timer set, no
    call made, nothing posted -- and completes without an error. *)
Theorem installation_guard :
  forall w : window,
    slot_is_object (ethereum w) = true ->
    injectedJavaScript w = (w, Normal (JBool true)).
Proof.
  intros [e t c o] H. unfold injectedJavaScript. cbn in *.
  destruct e as [ [ | | b | x | s | items | props ] | id | ];
    try discriminate H; reflexivity.
Qed.

(** What [handleWebViewMessage] does with a text that is not a Request. *)
Lemma handleWebViewMessage_malformed (data_text : string) :
  well_typed "ETH_REQUEST" data_text = false ->
  handleWebViewMessage data_text = ([], Normal tt)
  \/ exists e, handleWebViewMessage data_text
               = ([Act (Console_warn "Error parsing message from web:" e)], Normal tt).
Proof.
  unfold well_typed, handleWebViewMessage, parse.
  destruct (JSON_parse data_text) as [ data | ]; [ | right; eexists; reflexivity ].
  destruct data as [ | | b | x | s | items | props ];
    try (left; reflexivity); try (right; eexists; reflexivity).
  intros H. left.
  rewrite bind_ret_l, get_prop_object, bind_ret_l, H. reflexivity.
Qed.

(** C9: on a malformed payload -- a text that [JSON.parse] rejects, or one
    that does not parse to an object carrying the expected [type] --
    neither handler throws and neither produces a Response: the host's
    [handleWebViewMessage] invokes no [sendWebViewResponse], posts nothing
    and puts up no alert (a parse error is caught and only warned about),
    and the provider's [handleMessage] does nothing and leaves the call as
    it was. *)
Theorem malformed_payload_ignored :
  forall text : string,
    (well_typed "ETH_REQUEST" text = false ->
     outcome (handleWebViewMessage text) = Normal tt
     /\ alerts (trace (handleWebViewMessage text)) = []
     /\ (forall consent,
            emitted (settle consent (trace (handleWebViewMessage text))) = []
            /\ posted (settle consent (trace (handleWebViewMessage text))) = [])
     /\ (JSON_parse text = None ->
         handleWebViewMessage text
         = ([Act (Console_warn "Error parsing message from web:" SyntaxError)], Normal tt)))
    /\ (well_typed "ETH_RESPONSE" text = false ->
        forall (method : jsval) (c : pending_call),
          handleMessage method text = ([], Normal tt)
          /\ on_message text c = c).
Proof.
  intros text. split.
  - intros H.
    assert (Hnone : JSON_parse text = None ->
                    handleWebViewMessage text
                    = ([Act (Console_warn "Error parsing message from web:" SyntaxError)],
                       Normal tt)).
    { intros Hparse. unfold handleWebViewMessage, parse. rewrite Hparse. reflexivity. }
    destruct (handleWebViewMessage_malformed text H) as [ Heq | [e Heq] ];
      rewrite Heq in *; repeat split; assumption.
  - intros H method c.
    assert (Hans : forall m, answers m text = false).
    { intros m. unfold well_typed in H. unfold answers.
      destruct (JSON_parse text) as [ [ | | b | x | s | items | props ] | ];
        try reflexivity.
      rewrite H. reflexivity. }
    split; [ apply handleMessage_ignores; apply Hans | ].
    unfold on_message. rewrite (handleMessage_ignores _ text (Hans (call_method c))).
    destruct (listening c); reflexivity.
Qed.

(** ** The relay between the two sides *)

Lemma nothing_crossed_refl (s : system) : nothing_crossed s s.
Proof.
  repeat split. exists []. split; [ symmetry; apply app_nil_r | constructor ].
Qed.

Lemma nothing_crossed_trans (s1 s2 s3 : system) :
  nothing_crossed s1 s2 -> nothing_crossed s2 s3 -> nothing_crossed s1 s3.
Proof.
  intros (R1 & D1 & P1 & E1 & new1 & C1 & F1) (R2 & D2 & P2 & E2 & new2 & C2 & F2).
  unfold nothing_crossed.
  rewrite R2, D2, P2, E2, C2, C1.
  repeat split; try assumption.
  exists (new1 ++ new2)%list. split; [ symmetry; apply app_assoc | ].
  apply Forall_app. split; assumption.
Qed.

(** With no [onMessage] prop, a request of the page stays on the page. *)
Lemma page_request_unanswered (consent : string -> string -> Decision)
    (method params : jsval) (s : system) :
  nothing_crossed s (page_request App_WebView consent method params s).
Proof.
  unfold page_request, page_posted. cbn [prop_onMessage App_WebView].
  destruct (ethereum (page s)) eqn:He; try apply nothing_crossed_refl.
  repeat split; cbn; try assumption.
  exists [PendingCall method true Pending].
  split; [ reflexivity | ]. repeat constructor.
Qed.

(** [sendWebViewResponse] records its call and logs. *)
Lemma sendWebViewResponse_trace (method : jsval) (success : bool) (resultOrError : jsval) :
  trace (sendWebViewResponse (E:=action) method success resultOrError)
  = Enter_sendWebViewResponse method success resultOrError
    :: match to_string method with
       | Some method_text =>
           [Console_log [ JStr ("[RESPONSE to " ++ method_text ++ "] success="
                                  ++ bool_to_string success ++ ", data=");
                          resultOrError ]]
       | None => []
       end.
Proof.
  unfold sendWebViewResponse, ToString.
  destruct (to_string method); reflexivity.
Qed.

(** The debug button posts nothing, whatever the user answers. *)
Lemma Button_onPress_posts_nothing (consent : string -> string -> Decision) :
  posted (settle consent (trace Button_onPress)) = [].
Proof. cbn. destruct (consent _ _); reflexivity. Qed.

Lemma step_nothing_crossed (consent : string -> string -> Decision)
    (s : system) (i : input) :
  nothing_crossed s (step App_WebView consent s i).
Proof.
  destruct i as [ | | method params | ]; cbn [step App_WebView prop_injectedJavaScript].
  - apply nothing_crossed_refl.
  - unfold host_did. rewrite Button_onPress_posts_nothing.
    repeat split; cbn [received delivered performed page deliver fold_left].
    + apply app_nil_r.
    + rewrite posted_app, Button_onPress_posts_nothing. apply app_nil_r.
    + exists []. split; [ symmetry; apply app_nil_r | constructor ].
  - apply page_request_unanswered.
  - destruct (timers (page s)) as [ | [[] delay] rest ]; [ apply nothing_crossed_refl | ].
    match goal with
    | |- nothing_crossed s (page_request _ _ ?m ?p ?s0) =>
        apply (nothing_crossed_trans s s0);
          [ | apply page_request_unanswered ]
    end.
    repeat split. exists []. split; [ symmetry; apply app_nil_r | constructor ].
Qed.

(** C3: the relay is inactive.  The [WebView] is mounted with neither
    [onMessage] nor [injectedJavaScript]; [sendWebViewResponse] records its
    call, logs, and posts nothing.  Hence, along every run of the mounted
    tree -- page loads, presses of the debug button with any answer to its
    alert, calls of [request] by the page, timers firing -- the Host Bridge
    receives no text from the page, no text reaches the page or is posted
    to it, the script installs no provider, and every call of the page
    stays as it was, the calls made during the run staying pending. *)
Theorem relay_inactive :
  prop_onMessage App_WebView = None
  /\ prop_injectedJavaScript App_WebView = None
  /\ (forall method success resultOrError,
         posted (trace (sendWebViewResponse (E:=action) method success resultOrError)) = []
         /\ forall a,
              In a (trace (sendWebViewResponse (E:=action) method success resultOrError)) ->
              a = Enter_sendWebViewResponse method success resultOrError
              \/ exists args, a = Console_log args)
  /\ (forall consent inputs s,
         let s' := run App_WebView consent inputs s in
         received s' = received s
         /\ delivered s' = delivered s
         /\ posted (performed s') = posted (performed s)
         /\ ethereum (page s') = ethereum (page s)
         /\ exists new,
              calls (page s') = (calls (page s) ++ new)%list
              /\ Forall (fun c => promise c = Pending) new).
Proof.
  split; [ reflexivity | ]. split; [ reflexivity | ].
  split.
  { intros method success resultOrError. rewrite sendWebViewResponse_trace.
    destruct (to_string method); cbn; (split; [ reflexivity | ]); intros a Ha.
    - destruct Ha as [ <- | [ <- | [] ] ]; [ left; reflexivity | right; eauto ].
    - destruct Ha as [ <- | [] ]. left; reflexivity. }
  intros consent inputs s.
  change (nothing_crossed s (run App_WebView consent inputs s)).
  revert s. induction inputs as [ | i inputs IH ]; intros s.
  - apply nothing_crossed_refl.
  - unfold run in *. cbn [fold_left].
    apply (nothing_crossed_trans s (step App_WebView consent s i)).
    + apply step_nothing_crossed.
    + apply IH.
Qed.

(** For comparison: with lines 250-251 and the block of lines 231-241
    enabled, a request of the page does reach the Host Bridge, and the
    emitter does post. *)
Lemma relay_enabled_reaches_host (consent : string -> string -> Decision)
    (method params : jsval) (s : system) :
  ethereum (page s) = Eip1193Provider ->
  received (step App_WebView_enabled consent s (Page_calls_request method params))
  = (received s ++ [request_text method params])%list.
Proof.
  intros He. cbn [step]. unfold page_request. rewrite He. reflexivity.
Qed.

Lemma sendWebViewResponse_enabled_posts (m : string) (success : bool) (resultOrError : jsval) :
  posted (trace (sendWebViewResponse_enabled (E:=action) (JStr m) success resultOrError))
  = [JSON_stringify (JObj (ETH_RESPONSE (JStr m) success resultOrError))].
Proof. reflexivity. Qed.

(** ** Further properties of the Host Bridge *)

(** The Responses of a dispatch, by how it ended. *)
Lemma dispatch_emitted_cases (consent : string -> string -> Decision) (method params : jsval) :
  match outcome (onEthereumRequest method params) with
  | Normal _ =>
      exists success payload,
        emitted (dispatch consent method params) = [Response method success payload]
  | Thrown _ => emitted (dispatch consent method params) = []
  end.
Proof.
  unfold dispatch, onEthereumRequest, sendWebViewResponse, ToString.
  destruct (to_string method) as [ mt | ]; [ | reflexivity ].
  destruct method as [ | | b | x | m | items | props ];
    try (cbn; eauto).
  cbn [strict_eq_str].
  switch_on m; try (cbn; eauto; fail);
    try (cbn; destruct (consent _ _); cbn; eauto; fail).
  destruct params as [ | | b | x | s | items | props ]; unfold js_or; cbn [truthy];
    try (cbn; try destruct (consent _ _); cbn; eauto; fail).
  - destruct b; cbn; try destruct (consent _ _); cbn; eauto.
  - destruct (num_truthy x); cbn; try destruct (consent _ _); cbn; eauto.
  - destruct s as [ | c [ | c' s ] ]; cbn; destruct (consent _ _); cbn; eauto.
  - cbn -[to_string nth].
    destruct (to_string (nth 0 items JUndefined)); [ | reflexivity ].
    cbn -[to_string nth].
    destruct (to_string (nth 1 items JUndefined)); [ | reflexivity ].
    cbn. destruct (consent _ _); cbn; eauto.
Qed.

(** X1: for every method value, [params] and answers of the user,
    dispatch invokes [sendWebViewResponse] at most once, never with
    another method than the one it was given, and exactly once precisely
    when it completes without throwing. *)
Theorem dispatch_responds_iff_completes :
  forall (consent : string -> string -> Decision) (method params : jsval),
    length (emitted (dispatch consent method params)) <= 1
    /\ Forall (fun r => r_method r = method) (emitted (dispatch consent method params))
    /\ (length (emitted (dispatch consent method params)) = 1
        <-> outcome (onEthereumRequest method params) = Normal tt).
Proof.
  intros consent method params.
  pose proof (dispatch_emitted_cases consent method params) as H.
  destruct (outcome (onEthereumRequest method params)) as [ [] | e ].
  - destruct H as (success & payload & ->). cbn.
    split; [ apply le_n | ]. split; [ repeat constructor | ].
    split; reflexivity.
  - rewrite H. cbn.
    split; [ apply le_S, le_n | ]. split; [ constructor | ].
    split; intros H'; discriminate H'.
Qed.

(** X2: a Request for [eth_sendTransaction] puts up one alert and
    completes; if the user rejects, the one Response has [success] false
    and the message "User rejected transaction", after an error toast; if
    the user approves, its result is the fixed transaction hash, after a
    success toast naming that hash.  [params] plays no part. *)
Theorem sendTransaction_outcome :
  forall (consent : string -> string -> Decision) (params : jsval),
    let method := JStr "eth_sendTransaction" in
    let title := "Transaction Request" in
    let message := "Uniswap wants to send a transaction." ++ nl ++ "Approve transaction?" in
    outcome (onEthereumRequest method params) = Normal tt
    /\ alerts (trace (onEthereumRequest method params)) = [(title, message)]
    /\ unanswered (trace (onEthereumRequest method params))
       = [Console_log [JStr "[EIP-1193 REQUEST] method=eth_sendTransaction"; params]]
    /\ dispatch consent method params
       = Console_log [JStr "[EIP-1193 REQUEST] method=eth_sendTransaction"; params]
         :: match consent title message with
            | Reject =>
                [ Toast_error "Transaction rejected.";
                  Enter_sendWebViewResponse method false (JStr "User rejected transaction");
                  Console_log [JStr "[RESPONSE to eth_sendTransaction] success=false, data=";
                               JStr "User rejected transaction"] ]
            | Approve =>
                [ Toast_success "Transaction approved (mock): 0xDUMMY_TRANSACTION_HASH";
                  Enter_sendWebViewResponse method true (JStr "0xDUMMY_TRANSACTION_HASH");
                  Console_log [JStr "[RESPONSE to eth_sendTransaction] success=true, data=";
                               JStr "0xDUMMY_TRANSACTION_HASH"] ]
            end.
Proof.
  intros consent params method title message.
  split; [ reflexivity | ]. split; [ reflexivity | ]. split; [ reflexivity | ].
  unfold dispatch. cbn. destruct (consent _ _); reflexivity.
Qed.

(** X3: Requests for [net_version], [eth_accounts] and
    [wallet_switchEthereumChain] put up no alert and are answered at once,
    whatever [params] is: with the result "1", with the one-element array
    of the mock address, and with [null] (after a toast), each with
    [success] true. *)
Theorem immediate_methods_outcome :
  forall (consent : string -> string -> Decision) (params : jsval),
    (alerts (trace (onEthereumRequest (JStr "net_version") params)) = []
     /\ emitted (dispatch consent (JStr "net_version") params)
        = [Response (JStr "net_version") true (JStr "1")])
    /\ (alerts (trace (onEthereumRequest (JStr "eth_accounts") params)) = []
        /\ emitted (dispatch consent (JStr "eth_accounts") params)
           = [Response (JStr "eth_accounts") true (JArr [JStr "0xDUMMY_WALLET_ADDRESS"])])
    /\ (alerts (trace (onEthereumRequest (JStr "wallet_switchEthereumChain") params)) = []
        /\ dispatch consent (JStr "wallet_switchEthereumChain") params
           = [ Console_log [JStr "[EIP-1193 REQUEST] method=wallet_switchEthereumChain"; params];
               Console_log [JStr "[wallet_switchEthereumChain] -> mocked success"];
               Toast "Switching Ethereum chain (mock success).";
               Enter_sendWebViewResponse (JStr "wallet_switchEthereumChain") true JNull;
               Console_log [JStr "[RESPONSE to wallet_switchEthereumChain] success=true, data=";
                            JNull] ]
        /\ has_field (ETH_RESPONSE (JStr "wallet_switchEthereumChain") true JNull) "result"
           = true).
Proof.
  intros consent params.
  split; [ split; reflexivity | ].
  split; [ split; reflexivity | ].
  split; [ reflexivity | ]. split; reflexivity.
Qed.


(** X5: a Request whose method is not a string -- absent, [null], a
    number, an array, an object -- matches no label of the [switch]: if
    the method converts to a string, dispatch completes, puts up no alert,
    shows an error toast and produces the one Response with [success]
    false and the message "Method not supported: " followed by that
    string; the Response carries the method value unchanged. *)
Theorem nonstring_method_unsupported :
  forall (consent : string -> string -> Decision) (method params : jsval) (shown : string),
    (forall s, method <> JStr s) ->
    to_string method = Some shown ->
    outcome (onEthereumRequest method params) = Normal tt
    /\ alerts (trace (onEthereumRequest method params)) = []
    /\ error_toasts (dispatch consent method params) = ["Method not supported: " ++ shown]
    /\ emitted (dispatch consent method params)
       = [Response method false (JStr ("Method not supported: " ++ shown))].
Proof.
  intros consent method params shown Hns Hshown.
  unfold dispatch, onEthereumRequest, sendWebViewResponse, ToString.
  rewrite Hshown.
  destruct method as [ | | b | x | m | items | props ];
    try (cbn; repeat split; reflexivity).
  exfalso. apply (Hns m). reflexivity.
Qed.

(** X6: for every method value, [params] and answers of the user, a run
    of dispatch shows exactly as many error toasts as it produces
    Responses with [success] false: every failure it reports to the page
    is shown to the user, and no error toast appears otherwise. *)
Theorem failures_are_toasted :
  forall (consent : string -> string -> Decision) (method params : jsval),
    length (error_toasts (dispatch consent method params))
    = length (failures (dispatch consent method params)).
Proof.
  intros consent method params.
  unfold failures, dispatch, onEthereumRequest, sendWebViewResponse, ToString.
  destruct (to_string method) as [ mt | ]; [ | reflexivity ].
  destruct method as [ | | b | x | m | items | props ];
    try (cbn; reflexivity).
  cbn [strict_eq_str].
  switch_on m; try (cbn; reflexivity);
    try (cbn; destruct (consent _ _); reflexivity).
  destruct params as [ | | b | x | s | items | props ]; unfold js_or; cbn [truthy];
    try (cbn; try destruct (consent _ _); reflexivity).
  - destruct b; cbn; try destruct (consent _ _); reflexivity.
  - destruct (num_truthy x); cbn; try destruct (consent _ _); reflexivity.
  - destruct s as [ | c [ | c' s ] ]; cbn; destruct (consent _ _); reflexivity.
  - cbn -[to_string nth].
    destruct (to_string (nth 0 items JUndefined)); [ | reflexivity ].
    cbn -[to_string nth].
    destruct (to_string (nth 1 items JUndefined)); [ | reflexivity ].
    cbn. destruct (consent _ _); reflexivity.
Qed.

Lemma alerts_app (t1 t2 : list effect) :
  alerts (t1 ++ t2) = (alerts t1 ++ alerts t2)%list.
Proof.
  induction t1 as [ | [ a | title message buttons ] t1 IH ]; cbn;
    [ reflexivity | exact IH | rewrite IH; reflexivity ].
Qed.

(** [handleWebViewMessage] on a text that parses to a Request. *)
Lemma handleWebViewMessage_request (data_text : string) (props : list (string * jsval)) :
  JSON_parse data_text = Some (JObj props) ->
  strict_eq_str (field props "type") "ETH_REQUEST" = true ->
  handleWebViewMessage data_text
  = ((trace (onEthereumRequest (field props "method") (field props "params"))
        ++ match outcome (onEthereumRequest (field props "method") (field props "params")) with
           | Normal _ => []
           | Thrown e => [Act (Console_warn "Error parsing message from web:" e)]
           end)%list,
     Normal tt).
Proof.
  intros Hparse Hty.
  unfold handleWebViewMessage, parse. rewrite Hparse.
  rewrite bind_ret_l, get_prop_object, bind_ret_l, Hty.
  rewrite get_prop_object, bind_ret_l, get_prop_object, bind_ret_l.
  destruct (onEthereumRequest (field props "method") (field props "params"))
    as [t [ [] | e ]]; cbn; [ rewrite app_nil_r | ]; reflexivity.
Qed.

(** X7: [handleWebViewMessage] never throws, whatever text it is given
    -- unparseable, of another shape, or a Request on which dispatch
    throws -- and it invokes [sendWebViewResponse] at most once. *)
Theorem handleWebViewMessage_never_throws :
  forall (consent : string -> string -> Decision) (data_text : string),
    outcome (handleWebViewMessage data_text) = Normal tt
    /\ length (emitted (settle consent (trace (handleWebViewMessage data_text)))) <= 1.
Proof.
  intros consent data_text.
  destruct (well_typed "ETH_REQUEST" data_text) eqn:Hwt.
  - unfold well_typed in Hwt.
    destruct (JSON_parse data_text) as [ [ | | b | x | s | items | props ] | ] eqn:Hparse;
      try discriminate Hwt.
    rewrite (handleWebViewMessage_request data_text props Hparse Hwt).
    split; [ reflexivity | ]. cbn [trace fst].
    rewrite settle_app, emitted_app.
    fold (dispatch consent (field props "method") (field props "params")).
    pose proof (dispatch_emitted_cases consent (field props "method") (field props "params"))
      as H.
    destruct (outcome (onEthereumRequest (field props "method") (field props "params")))
      as [ [] | e ].
    + destruct H as (success & payload & ->). apply le_n.
    + rewrite H. apply le_S, le_n.
  - destruct (handleWebViewMessage_malformed data_text Hwt) as [ -> | [e ->] ];
      (split; [ reflexivity | apply le_S, le_n ]).
Qed.

(** X8: a text that parses to an object of type "ETH_REQUEST" is
    dispatched on its [method] and [params] properties (absent ones
    reading as [undefined]): [handleWebViewMessage] performs what
    [onEthereumRequest] performs on them, followed by one warning if that
    throws, and so produces the same Responses and alerts. *)
Theorem handleWebViewMessage_relays_request :
  forall (consent : string -> string -> Decision) (data_text : string)
         (props : list (string * jsval)),
    JSON_parse data_text = Some (JObj props) ->
    strict_eq_str (field props "type") "ETH_REQUEST" = true ->
    let method := field props "method" in
    let params := field props "params" in
    trace (handleWebViewMessage data_text)
    = (trace (onEthereumRequest method params)
         ++ match outcome (onEthereumRequest method params) with
            | Normal _ => []
            | Thrown e => [Act (Console_warn "Error parsing message from web:" e)]
            end)%list
    /\ emitted (settle consent (trace (handleWebViewMessage data_text)))
       = emitted (dispatch consent method params)
    /\ alerts (trace (handleWebViewMessage data_text))
       = alerts (trace (onEthereumRequest method params)).
Proof.
  intros consent data_text props Hparse Hty method params. subst method params.
  rewrite (handleWebViewMessage_request data_text props Hparse Hty). cbn [trace fst].
  split; [ reflexivity | ].
  destruct (outcome (onEthereumRequest (field props "method") (field props "params")))
    as [ [] | e ].
  - rewrite app_nil_r. split; reflexivity.
  - split.
    + rewrite settle_app, emitted_app. cbn. apply app_nil_r.
    + rewrite alerts_app. cbn. apply app_nil_r.
Qed.

(** X9: a gated method never reports success against the user's will:
    if the user rejects every alert, every Response of a gated method has
    [success] false, and if the user approves every alert, every Response
    has [success] true. *)
Theorem gated_success_follows_decision :
  forall (consent : string -> string -> Decision) (d : Decision) (m : string)
         (params : jsval),
    gated m = true ->
    (forall title message, consent title message = d) ->
    Forall (fun r => r_success r = match d with
                                   | Approve => true
                                   | Reject => false
                                   end)
           (emitted (dispatch consent (JStr m) params)).
Proof.
  intros consent d m params Hg Hd.
  pose proof (dispatch_emitted_cases consent (JStr m) params) as Hcases.
  destruct (outcome (onEthereumRequest (JStr m) params)) as [ [] | e ] eqn:Hout;
    [ | rewrite Hcases; constructor ].
  clear Hcases. revert Hout Hg.
  unfold gated, dispatch, onEthereumRequest, sendWebViewResponse, ToString.
  cbn [existsb strict_eq_str to_string].
  rewrite bind_ret_l.
  switch_on m; try solve [ cbn; intros _ Hg; discriminate Hg ];
    try solve [ cbn; rewrite Hd; intros _ _; destruct d; repeat constructor ].
  destruct params as [ | | b | x | s | items | props ]; unfold js_or; cbn [truthy];
    try solve [ cbn; rewrite ?Hd; intros Hout _; try discriminate Hout;
                destruct d; repeat constructor ].
  - destruct b; cbn; rewrite ?Hd; intros Hout _; try discriminate Hout;
      destruct d; repeat constructor.
  - destruct (num_truthy x); cbn; rewrite ?Hd; intros Hout _; try discriminate Hout;
      destruct d; repeat constructor.
  - destruct s as [ | c [ | c' s ] ]; cbn; rewrite Hd; intros _ _;
      destruct d; repeat constructor.
  - cbn -[to_string nth].
    destruct (to_string (nth 0 items JUndefined)); [ | intros Hout; discriminate Hout ].
    cbn -[to_string nth].
    destruct (to_string (nth 1 items JUndefined)); [ | intros Hout; discriminate Hout ].
    cbn. rewrite Hd. intros _ _. destruct d; repeat constructor.
Qed.

(** ** Further properties of the Injected Provider *)

Lemma answers_inv (method : jsval) (text : string) :
  answers method text = true ->
  exists props,
    JSON_parse text = Some (JObj props)
    /\ strict_eq_str (field props "type") "ETH_RESPONSE" = true
    /\ strict_eq (field props "method") method = true.
Proof.
  unfold answers.
  destruct (JSON_parse text) as [ [ | | b | x | s | items | props ] | ];
    try discriminate.
  intros H. apply andb_true_iff in H. exists props. tauto.
Qed.

Lemma apply_event_deaf (c : pending_call) (e : page_event) :
  listening c = false -> listening (apply_event c e) = false.
Proof.
  intros H. destruct e; cbn; [ reflexivity | | ];
    destruct (promise c); cbn; assumption.
Qed.

Lemma apply_events_deaf (t : list page_event) (c : pending_call) :
  listening c = false -> listening (fold_left apply_event t c) = false.
Proof.
  revert c. induction t as [ | e t IH ]; intros c H; [ exact H | ].
  cbn. apply IH, apply_event_deaf, H.
Qed.


(** A Response to the call deregisters its listener. *)
Lemma on_message_answer_deafens (text : string) (c : pending_call) :
  answers (call_method c) text = true ->
  listening (on_message text c) = false.
Proof.
  intros H. unfold on_message.
  destruct (listening c) eqn:Hl; [ | exact Hl ].
  destruct (answers_inv _ _ H) as (props & Hparse & Hty & Hm).
  rewrite (handleMessage_answer _ text props Hparse Hty Hm).
  cbn [trace fst fold_left]. apply apply_events_deaf. reflexivity.
Qed.

Lemma on_message_other (text : string) (c : pending_call) :
  answers (call_method c) text = false -> on_message text c = c.
Proof.
  intros H. unfold on_message.
  rewrite (handleMessage_ignores _ text H). destruct (listening c); reflexivity.
Qed.

(** X10: the listener never throws, whatever the message and whatever the
    call's method -- a parse error, a read from [null] and an error message
    that cannot be converted are all swallowed -- and it calls [resolve] or
    [reject] at most once. *)
Theorem handleMessage_never_throws :
  forall (method : jsval) (text : string),
    outcome (handleMessage method text) = Normal tt
    /\ settlements (trace (handleMessage method text)) <= 1.
Proof.
  intros method text.
  destruct (answers method text) eqn:H.
  - destruct (answers_inv _ _ H) as (props & Hparse & Hty & Hm).
    rewrite (handleMessage_answer method text props Hparse Hty Hm).
    split; [ reflexivity | ]. cbn [trace fst].
    destruct (truthy (field props "success")); [ apply le_n | ].
    destruct (to_string _); [ apply le_n | apply le_S, le_n ].
  - rewrite (handleMessage_ignores method text H).
    split; [ reflexivity | apply le_S, le_n ].
Qed.


(** X12: of a sequence of messages, a listening call reacts to the first
    one that is a Response to its method, and to that one only: the
    messages before it are ignored and so are all the messages after it. *)
Theorem first_answer_wins :
  forall (texts : list string) (c : pending_call),
    on_messages texts c
    = match first_answer (call_method c) texts with
      | Some text => on_message text c
      | None => c
      end.
Proof.
  intros texts. induction texts as [ | text texts IH ]; intros c; [ reflexivity | ].
  unfold on_messages, first_answer in *. cbn [fold_left find].
  destruct (answers (call_method c) text) eqn:H.
  - apply (on_messages_not_listening texts), on_message_answer_deafens, H.
  - rewrite (on_message_other text c H). apply IH.
Qed.


(** X14: the injected script is idempotent and never fails: run on the
    window it has left, it changes nothing; after any run
    [window.ethereum] is truthy.  On a window whose [ethereum] is falsy it
    installs the provider and sets one timer of 3000 ms, touching nothing
    else; on any other window it changes nothing. *)
Theorem injectedJavaScript_idempotent :
  forall w : window,
    let w' := fst (injectedJavaScript w) in
    snd (injectedJavaScript w) = Normal (JBool true)
    /\ injectedJavaScript w' = (w', Normal (JBool true))
    /\ slot_truthy (ethereum w') = true
    /\ (if slot_truthy (ethereum w)
        then w' = w
        else w' = Window Eip1193Provider (timers w ++ [(Auto_connect, 3000)])%list
                         (calls w) (outbox w)).
Proof.
  intros w. unfold injectedJavaScript.
  destruct (slot_truthy (ethereum w)) eqn:H; cbn.
  - rewrite H. repeat split.
  - repeat split.
Qed.

(** ** Further properties of the mounted tree *)




(** X16: a message changes a call only by deregistering its listener:
    either the call is exactly as before, or its listener was registered
    and is registered no longer; a call's method never changes and a
    removed listener never comes back. *)
Theorem call_changes_only_by_deregistering :
  forall (text : string) (c : pending_call),
    call_method (on_message text c) = call_method c
    /\ (listening c = false -> on_message text c = c)
    /\ (on_message text c = c
        \/ (listening c = true /\ listening (on_message text c) = false)).
Proof.
  intros text c.
  split; [ | split ].
  - unfold on_message. destruct (listening c); [ | reflexivity ].
    generalize (trace (handleMessage (call_method c) text)).
    intros t. revert c. induction t as [ | e t IH ]; intros c; [ reflexivity | ].
    cbn [fold_left]. rewrite IH.
    destruct e; cbn; [ reflexivity | | ]; destruct (promise c); reflexivity.
  - apply on_message_not_listening.
  - destruct (answers (call_method c) text) eqn:H.
    + destruct (listening c) eqn:Hl.
      * right. split; [ reflexivity | ]. apply on_message_answer_deafens, H.
      * left. apply on_message_not_listening, Hl.
    + left. apply on_message_other, H.
Qed.

End Bridge.

(** ** The statements on concrete inputs *)

Local Abbreviation sample_onEthereumRequest :=
  (onEthereumRequest nat sample_truthy sample_to_string).
Local Abbreviation sample_dispatch :=
  (dispatch nat sample_truthy sample_to_string).
Local Abbreviation sample_handleWebViewMessage :=
  (handleWebViewMessage nat sample_truthy sample_to_string (sample_parse nat)).
Local Abbreviation sample_handleMessage :=
  (handleMessage nat sample_truthy sample_to_string Nat.eqb (sample_parse nat)).
Local Abbreviation sample_on_message :=
  (on_message nat sample_truthy sample_to_string Nat.eqb (sample_parse nat)).
Local Abbreviation sample_call :=
  (PendingCall nat (JStr nat "eth_chainId") true (Pending nat)).

(** C1, as stated, fails: a [personal_sign] Request whose [params] is an
    object makes the destructuring throw before any alert is put up, so
    [sendWebViewResponse] is never invoked, whatever the user would have
    answered; through [handleWebViewMessage] the error is caught and only
    warned about. *)
Lemma personal_sign_object_params_no_response :
  outcome (sample_onEthereumRequest (JStr nat "personal_sign")
             (JObj nat [("message", JStr nat "hello")]))
  = Thrown (TypeError "value is not iterable")
  /\ emitted nat (sample_dispatch (fun _ _ => Approve) (JStr nat "personal_sign")
                    (JObj nat [("message", JStr nat "hello")])) = []
  /\ emitted nat (sample_dispatch (fun _ _ => Reject) (JStr nat "personal_sign")
                    (JObj nat [("message", JStr nat "hello")])) = []
  /\ sample_parse nat "request:sign-object"
     = Some (JObj nat [ ("type", JStr nat "ETH_REQUEST");
                        ("method", JStr nat "personal_sign");
                        ("params", JObj nat [("message", JStr nat "hello")]) ])
  /\ emitted nat (settle nat (fun _ _ => Approve)
                    (trace (sample_handleWebViewMessage "request:sign-object"))) = []
  /\ outcome (sample_handleWebViewMessage "request:sign-object") = Normal tt.
Proof.
  split; [ reflexivity | ]. split; [ reflexivity | ]. split; [ reflexivity | ].
  split; [ reflexivity | ]. split; reflexivity.
Qed.

(** C1 (amended) at the Requests [personal_sign] with params [["hello"]],
    approved, and [eth_foo]. *)
Lemma dispatch_responds_once_witness :
  (outcome (sample_onEthereumRequest (JStr nat "personal_sign") (JArr nat [JStr nat "hello"]))
   = Normal tt
   /\ exists success payload,
        emitted nat (sample_dispatch (fun _ _ => Approve) (JStr nat "personal_sign")
                       (JArr nat [JStr nat "hello"]))
        = [Response nat (JStr nat "personal_sign") success payload])
  /\ (outcome (sample_onEthereumRequest (JStr nat "eth_foo") (JUndefined nat)) = Normal tt
      /\ exists success payload,
           emitted nat (sample_dispatch (fun _ _ => Reject) (JStr nat "eth_foo") (JUndefined nat))
           = [Response nat (JStr nat "eth_foo") success payload]).
Proof.
  split.
  - apply (dispatch_responds_once nat sample_truthy sample_to_string
             (fun _ _ => Approve) "personal_sign" (JArr nat [JStr nat "hello"])).
    intros _. reflexivity.
  - apply (dispatch_responds_once nat sample_truthy sample_to_string
             (fun _ _ => Reject) "eth_foo" (JUndefined nat)).
    intros H. discriminate H.
Defined.

(** C6 at the method [eth_foo]. *)
Lemma unsupported_method_fails_witness :
  supported "eth_foo" = false
  /\ outcome (sample_onEthereumRequest (JStr nat "eth_foo") (JUndefined nat)) = Normal tt
  /\ alerts nat (trace (sample_onEthereumRequest (JStr nat "eth_foo") (JUndefined nat))) = []
  /\ emitted nat (sample_dispatch (fun _ _ => Approve) (JStr nat "eth_foo") (JUndefined nat))
     = [Response nat (JStr nat "eth_foo") false (JStr nat "Method not supported: eth_foo")]
  /\ field nat (ETH_RESPONSE nat (JStr nat "eth_foo") false
                  (JStr nat "Method not supported: eth_foo")) "errorMessage"
     = JStr nat "Method not supported: eth_foo"
  /\ includes "Method not supported: eth_foo" "eth_foo" = true.
Proof.
  split; [ reflexivity | ].
  apply (unsupported_method_fails nat sample_truthy sample_to_string
           (fun _ _ => Approve) "eth_foo" (JUndefined nat)).
  reflexivity.
Defined.

(** C7, as stated, fails: a Response with [success] false whose
    [errorMessage] is present and is the empty string rejects the call with
    "Request failed", not with an error built from that [errorMessage]. *)
Lemma empty_errorMessage_rejects_with_default :
  sample_parse nat "response:empty-error"
  = Some (JObj nat [ ("type", JStr nat "ETH_RESPONSE"); ("method", JStr nat "eth_chainId");
                     ("success", JBool nat false); ("errorMessage", JStr nat "") ])
  /\ sample_on_message "response:empty-error" sample_call
     = PendingCall nat (JStr nat "eth_chainId") false (Rejected nat "Request failed")
  /\ to_string nat sample_to_string (JStr nat "") = Some ""
  /\ "Request failed" <> "".
Proof.
  split; [ reflexivity | ]. split; [ reflexivity | ]. split; [ reflexivity | ].
  discriminate.
Qed.

(** C7 (amended) at a pending [eth_chainId] call: the Response "0x1"
    deregisters the listener and fulfils the call, once, and the text
    "null" leaves the call as it was. *)
Lemma handleMessage_settles_once_witness :
  (listening nat (sample_on_message "response:chainId" sample_call) = false
   /\ settlements nat (trace (sample_handleMessage (JStr nat "eth_chainId") "response:chainId")) = 1
   /\ promise nat (sample_on_message "response:chainId" sample_call)
      = Fulfilled nat (JStr nat "0x1"))
  /\ (sample_handleMessage (JStr nat "eth_chainId") "null" = ([], Normal tt)
      /\ sample_on_message "null" sample_call = sample_call).
Proof.
  split.
  - destruct (proj1 (handleMessage_settles_once nat sample_truthy sample_to_string Nat.eqb
                       (sample_parse nat) sample_call "response:chainId" eq_refl eq_refl)
                eq_refl)
      as (props & Hparse & _ & Hlisten & _ & Hfulfil & _).
    injection Hparse as <-.
    destruct (Hfulfil eq_refl) as [Hruns Hpromise].
    split; [ exact Hlisten | ]. split; [ exact Hruns | exact Hpromise ].
  - exact (proj2 (handleMessage_settles_once nat sample_truthy sample_to_string Nat.eqb
                    (sample_parse nat) sample_call "null" eq_refl eq_refl) eq_refl).
Defined.

(** The outcomes the Responses of the examples settle a call with. *)
Example chainId_response_fulfils :
  sample_on_message "response:chainId" sample_call
  = PendingCall nat (JStr nat "eth_chainId") false (Fulfilled nat (JStr nat "0x1")).
Proof. reflexivity. Qed.

Example rejection_response_rejects :
  sample_on_message "response:rejected"
    (PendingCall nat (JStr nat "eth_requestAccounts") true (Pending nat))
  = PendingCall nat (JStr nat "eth_requestAccounts") false
      (Rejected nat "User rejected connection").
Proof. reflexivity. Qed.

Example response_to_another_method_ignored :
  sample_on_message "response:rejected" sample_call = sample_call.
Proof. reflexivity. Qed.

(** A Response whose [errorMessage] cannot be converted to a string: the
    listener has deregistered when [new Error] throws, the error is
    swallowed, and the call is left pending. *)
Example unprintable_errorMessage_leaves_pending :
  sample_on_message "response:object-error" sample_call
  = PendingCall nat (JStr nat "eth_chainId") false (Pending nat)
  /\ sample_handleMessage (JStr nat "eth_chainId") "response:object-error"
     = ([RemoveEventListener nat], Normal tt).
Proof. split; reflexivity. Qed.

(** C8 at a window whose [ethereum] is another wallet's provider. *)
Lemma installation_guard_witness :
  slot_is_object nat (ethereum nat (Window nat (Foreign_object nat 1) [] [] [])) = true
  /\ injectedJavaScript nat sample_truthy (Window nat (Foreign_object nat 1) [] [] [])
     = (Window nat (Foreign_object nat 1) [] [] [], Normal (JBool nat true)).
Proof.
  split; [ reflexivity | ].
  apply (installation_guard nat sample_truthy (Window nat (Foreign_object nat 1) [] [] [])).
  reflexivity.
Defined.

(** Without a provider the script installs its own and sets the timer. *)
Example injectedJavaScript_installs :
  injectedJavaScript nat sample_truthy (Window nat (Plain nat (JUndefined nat)) [] [] [])
  = (Window nat (Eip1193Provider nat) [(Auto_connect, 3000)] [] [], Normal (JBool nat true)).
Proof. reflexivity. Qed.

(** C9 at a text that does not parse and at the text "{}". *)
Lemma malformed_payload_ignored_witness :
  (sample_handleWebViewMessage "not json"
   = ([Act nat (Console_warn nat "Error parsing message from web:" SyntaxError)], Normal tt)
   /\ forall consent,
        emitted nat (settle nat consent (trace (sample_handleWebViewMessage "not json"))) = []
        /\ posted nat (settle nat consent (trace (sample_handleWebViewMessage "not json"))) = [])
  /\ (outcome (sample_handleWebViewMessage "{}") = Normal tt
      /\ alerts nat (trace (sample_handleWebViewMessage "{}")) = [])
  /\ (forall method c,
        sample_handleMessage method "{}" = ([], Normal tt)
        /\ sample_on_message "{}" c = c).
Proof.
  pose proof (malformed_payload_ignored nat sample_truthy sample_to_string Nat.eqb
                (sample_parse nat) "not json") as [Hhost _].
  pose proof (malformed_payload_ignored nat sample_truthy sample_to_string Nat.eqb
                (sample_parse nat) "{}") as [Hhost' Hpage].
  destruct (Hhost eq_refl) as (_ & _ & Hnone & Hwarn).
  destruct (Hhost' eq_refl) as (Hout & Halerts & _ & _).
  split; [ split; [ exact (Hwarn eq_refl) | exact Hnone ] | ].
  split; [ split; [ exact Hout | exact Halerts ] | ].
  exact (Hpage eq_refl).
Defined.

(** C10, as stated, fails: [params] is an array of one element, an object
    with an own property [toString]; the destructuring succeeds, but the
    prompt's template literal cannot convert the element to a string and
    throws, so no alert is put up and no Response is produced. *)
Lemma personal_sign_unprintable_element_throws :
  short_params nat (JArr nat [JObj nat [("toString", JStr nat "x")]]) = true
  /\ outcome (sample_onEthereumRequest (JStr nat "personal_sign")
                (JArr nat [JObj nat [("toString", JStr nat "x")]]))
     = Thrown (TypeError "Cannot convert object to primitive value")
  /\ alerts nat (trace (sample_onEthereumRequest (JStr nat "personal_sign")
                          (JArr nat [JObj nat [("toString", JStr nat "x")]]))) = []
  /\ emitted nat (sample_dispatch (fun _ _ => Approve) (JStr nat "personal_sign")
                    (JArr nat [JObj nat [("toString", JStr nat "x")]])) = []
  /\ emitted nat (sample_dispatch (fun _ _ => Reject) (JStr nat "personal_sign")
                    (JArr nat [JObj nat [("toString", JStr nat "x")]])) = [].
Proof.
  split; [ reflexivity | ]. split; [ reflexivity | ]. split; [ reflexivity | ].
  split; reflexivity.
Qed.

(** C10 (amended) at the params [["hello"]] with approval. *)
Lemma personal_sign_short_params_witness :
  short_params nat (JArr nat [JStr nat "hello"]) = true
  /\ outcome (sample_onEthereumRequest (JStr nat "personal_sign") (JArr nat [JStr nat "hello"]))
     = Normal tt
  /\ emitted nat (sample_dispatch (fun _ _ => Approve) (JStr nat "personal_sign")
                    (JArr nat [JStr nat "hello"]))
     = [Response nat (JStr nat "personal_sign") true (JStr nat "0xFAKE_SIGNATURE")].
Proof.
  split; [ reflexivity | ].
  destruct (personal_sign_short_params nat sample_truthy sample_to_string
              (fun _ _ => Approve) (JArr nat [JStr nat "hello"]) "hello" eq_refl eq_refl)
    as (Hout & _ & Hemitted & _).
  split; [ exact Hout | exact Hemitted ].
Defined.

(** The prompt of a [personal_sign] Request without [params]. *)
Example personal_sign_prompt_without_params :
  alerts nat (trace (sample_onEthereumRequest (JStr nat "personal_sign") (JUndefined nat)))
  = [ ("Signature Request",
       "Uniswap wants to sign:" ++ nl ++ "undefined" ++ nl ++ "With address:" ++ nl
         ++ "undefined" ++ nl ++ "Allow?") ].
Proof. reflexivity. Qed.

(** ** Further statements on concrete inputs *)

(** X5 at a Request without a method. *)
Lemma nonstring_method_unsupported_witness :
  outcome (sample_onEthereumRequest (JUndefined nat) (JUndefined nat)) = Normal tt
  /\ alerts nat (trace (sample_onEthereumRequest (JUndefined nat) (JUndefined nat))) = []
  /\ error_toasts nat (sample_dispatch (fun _ _ => Approve) (JUndefined nat) (JUndefined nat))
     = ["Method not supported: undefined"]
  /\ emitted nat (sample_dispatch (fun _ _ => Approve) (JUndefined nat) (JUndefined nat))
     = [Response nat (JUndefined nat) false (JStr nat "Method not supported: undefined")].
Proof.
  apply (nonstring_method_unsupported nat sample_truthy sample_to_string
           (fun _ _ => Approve) (JUndefined nat) (JUndefined nat) "undefined").
  - intros s H. discriminate H.
  - reflexivity.
Defined.

(** X8 at a text read as the Request [{type: "ETH_REQUEST", method:
    "eth_chainId"}]. *)
Lemma handleWebViewMessage_relays_request_witness :
  trace (handleWebViewMessage nat sample_truthy sample_to_string (sample_parse_request nat)
           "request")
  = (trace (sample_onEthereumRequest (JStr nat "eth_chainId") (JUndefined nat)) ++ [])%list
  /\ emitted nat (settle nat (fun _ _ => Reject)
                    (trace (handleWebViewMessage nat sample_truthy sample_to_string
                              (sample_parse_request nat) "request")))
     = emitted nat (sample_dispatch (fun _ _ => Reject) (JStr nat "eth_chainId") (JUndefined nat))
  /\ alerts nat (trace (handleWebViewMessage nat sample_truthy sample_to_string
                          (sample_parse_request nat) "request"))
     = alerts nat (trace (sample_onEthereumRequest (JStr nat "eth_chainId") (JUndefined nat))).
Proof.
  exact (handleWebViewMessage_relays_request nat sample_truthy sample_to_string
           (sample_parse_request nat) (fun _ _ => Reject) "request"
           [ ("type", JStr nat "ETH_REQUEST"); ("method", JStr nat "eth_chainId") ]
           eq_refl eq_refl).
Defined.

(** X9 at [eth_sendTransaction] with a user who rejects. *)
Lemma gated_success_follows_decision_witness :
  gated "eth_sendTransaction" = true
  /\ Forall (fun r => r_success nat r = false)
            (emitted nat (sample_dispatch (fun _ _ => Reject) (JStr nat "eth_sendTransaction")
                            (JUndefined nat))).
Proof.
  split; [ reflexivity | ].
  apply (gated_success_follows_decision nat sample_truthy sample_to_string
           (fun _ _ => Reject) Reject "eth_sendTransaction" (JUndefined nat)).
  - reflexivity.
  - intros title message. reflexivity.
Defined.



(** Two concurrent calls of [eth_chainId] are both fulfilled by the one
    Response. *)
Example concurrent_calls_both_fulfilled :
  calls nat
    (window_message nat sample_truthy sample_to_string Nat.eqb (sample_parse nat)
       "response:chainId"
       (request nat (fun _ => "") (JStr nat "eth_chainId") (JArr nat [])
          (request nat (fun _ => "") (JStr nat "eth_chainId") (JUndefined nat)
             (Window nat (Eip1193Provider nat) [] [] []))))
  = [ PendingCall nat (JStr nat "eth_chainId") false (Fulfilled nat (JStr nat "0x1"));
      PendingCall nat (JStr nat "eth_chainId") false (Fulfilled nat (JStr nat "0x1")) ].
Proof. reflexivity. Qed.
